(** * SwasthyaSahayak: the model version registry and the code around it

    A shallow embedding of the Python code of the repository:

    - [src/ml/training/update_registry.py]: [update_model_version], [main];
    - [src/ml/tests/test_registry.py]: [bump_patch], [bump_minor],
      [bump_major] and the version pattern of the structure test;
    - [src/ml/inference/service.py]: [load_models] and the routes
      [/embed], [/embed-batch] and [/translate];
    - [src/ml/training/train_embeddings.py]: the version bump at the end of
      [train];
    - [src/ml/models/translation_model.py]: [detect_language], [translate];
    - [src/ml/models/embedding_model.py]: the batching of [encode].

    Modelling choices.

    - A Python [str] of the registry code is a [string]: a sequence of
      characters with code points below 256.  On that range the regular
      expression class [\d] is exactly the ten ASCII digits.  A text handed
      to the models is the list of its code points, of any size.
    - A Python [int] is an [N] or a [Z]: no bound.  Reading an [int] from
      a [str] and writing one as a [str] are limited to 4300 decimal
      digits, the default of the interpreter, and raise [ValueError]
      beyond.
    - A [dict] is an association list in insertion order.
    - A file is known by what [json.load] makes of its text: nothing, text
      that is not JSON, or a JSON value.  The file system is a finite map
      from paths to such contents.
    - Python code that prints, exits or raises is written in a state monad
      with the three ways a call can end; code without a state returns or
      raises.  The clock and the loading of the ML models are inputs held
      in the state.
    - Tokenizers and neural models are functions handed to the code that
      calls them; arrays of numbers are rows of an open type.
    - Printed and logged lines are constructors that carry the values
      interpolated into the text. *)

From Stdlib Require Import Ascii String NArith ZArith.
From Stdlib Require Import Decimal DecimalString DecimalN DecimalPos DecimalFacts.
From stdpp Require Import base option list strings gmap.

(* ================================================================== *)
(** * Python strings and integers *)

Module PyStr.

(** [\d] on one character. *)
Definition is_digit (c : ascii) : bool :=
  ((48 <=? N_of_ascii c) && (N_of_ascii c <=? 57))%N.

(** [s.startswith(c)] for a one-character prefix. *)
Definition startswith (c : ascii) (s : string) : bool :=
  match s with
  | String c' _ => Ascii.eqb c' c
  | EmptyString => false
  end.

(** [all(is_digit(c) for c in s)]. *)
Fixpoint all_digits (s : string) : bool :=
  match s with
  | EmptyString => true
  | String c s' => is_digit c && all_digits s'
  end.

(** A non-empty run of digits: the texts that [\d+] can match. *)
Definition digit_run (s : string) : bool :=
  match s with
  | EmptyString => false
  | String _ _ => all_digits s
  end.

(** The first character of [s] is a digit. *)
Definition starts_with_digit (s : string) : bool :=
  match s with
  | String c _ => is_digit c
  | EmptyString => false
  end.

(** [needle in haystack] on two strings. *)
Definition contains (needle haystack : string) : bool :=
  match String.index 0 needle haystack with
  | Some _ => true
  | None => false
  end.

End PyStr.

(* ================================================================== *)
(** * JSON values and Python dictionaries *)

Module Json.

(** What [json.load] produces.  A number with a fraction or an exponent is
    kept as its literal: the registry code never computes with one.  An
    object is a Python [dict], which keeps its keys in insertion order, so
    it is an association list here; the order shows in the text
    [json.dump] writes and in [list(registry.keys())]. *)
#[local] Set Warnings "-register-all".
Inductive json : Type :=
| JNull
| JBool (b : bool)
| JInt (n : Z)
| JFloat (literal : string)
| JStr (s : string)
| JArr (items : list json)
| JObj (fields : list (string * json)).

Abbreviation dict := (list (string * json)).

(** [d.get(key)]; the first binding of a key is the binding. *)
Fixpoint dict_get (d : dict) (key : string) : option json :=
  match d with
  | [] => None
  | (k, v) :: d' => if decide (k = key) then Some v else dict_get d' key
  end.

(** [key in d]. *)
Definition dict_in (key : string) (d : dict) : bool :=
  match dict_get d key with Some _ => true | None => false end.

(** [d.get(key, default)]. *)
Definition dict_get_default (d : dict) (key : string) (default : json) : json :=
  match dict_get d key with Some v => v | None => default end.

(** [d[key] = v]: a key already present keeps its place, a new key goes
    to the end. *)
Fixpoint dict_set (d : dict) (key : string) (v : json) : dict :=
  match d with
  | [] => [(key, v)]
  | (k, x) :: d' =>
      if decide (k = key) then (k, v) :: d' else (k, x) :: dict_set d' key v
  end.

(** [list(d.keys())]. *)
Definition dict_keys (d : dict) : list string := d.*1.

(** [x == s] for a string [s]. *)
Definition eq_str (s : string) (x : json) : bool :=
  match x with JStr s' => bool_decide (s' = s) | _ => false end.

End Json.

(* ================================================================== *)
(** * Python control flow: results, exits and exceptions over a state *)

Module Py.
Import Json.

Inductive exn : Type :=
| FileNotFoundError
| JSONDecodeError
| TypeError
| AttributeError
| OtherError (what : string).

(** How a call ends.  [sys.exit(code)] raises [SystemExit], which is not
    an [Exception] and which no handler of this code catches. *)
Inductive outcome (A : Type) : Type :=
| Return (a : A)
| SystemExit (code : Z)
| Raise (e : exn).
Arguments Return {A} a.
Arguments SystemExit {A} code.
Arguments Raise {A} e.

Definition M (S A : Type) : Type := S → outcome A * S.

Global Instance M_ret {S} : MRet (M S) := λ A a s, (Return a, s).
Global Instance M_bind {S} : MBind (M S) := λ A B k m s,
  match m s with
  | (Return a, s') => k a s'
  | (SystemExit code, s') => (SystemExit code, s')
  | (Raise e, s') => (Raise e, s')
  end.

Definition sys_exit {S A} (code : Z) : M S A := λ s, (SystemExit code, s).
Definition raise {S A} (e : exn) : M S A := λ s, (Raise e, s).
Definition gets {S A} (f : S → A) : M S A := λ s, (Return (f s), s).
Definition modify {S} (f : S → S) : M S unit := λ s, (Return tt, f s).

(** [try: body / except Exception as e: handler(e)]. *)
Definition try_except {S A} (body : M S A) (handler : exn → M S A) : M S A :=
  λ s,
    match body s with
    | (Raise e, s') => handler e s'
    | r => r
    end.

(** [if c: body], with nothing to do otherwise. *)
Definition when {S} (c : bool) (body : M S unit) : M S unit :=
  if c then body else mret tt.

(** [for x in xs: body(x)]. *)
Fixpoint for_each {S A} (xs : list A) (body : A → M S unit) : M S unit :=
  match xs with
  | [] => mret tt
  | x :: xs' => body x;; for_each xs' body
  end.

(** The exit status of the interpreter for a script that ends this way:
    an uncaught exception prints a traceback and gives status 1. *)
Definition exit_status {A} (o : outcome A) : Z :=
  match o with
  | Return _ => 0
  | SystemExit code => code
  | Raise _ => 1
  end.

(** ** Operations of the registry code on a loaded value

    [json.load] may give any JSON value; each operation is written out
    for the values that are not a [dict] too. *)

(** [key in registry]. *)
Definition py_in {S} (key : string) (registry : json) : M S bool :=
  match registry with
  | JObj d => mret (dict_in key d)
  | JArr items => mret (existsb (eq_str key) items)
  | JStr s => mret (PyStr.contains key s)
  | _ => raise TypeError
  end.

(** [registry.keys()], as a list. *)
Definition py_keys {S} (registry : json) : M S (list string) :=
  match registry with
  | JObj d => mret (dict_keys d)
  | _ => raise AttributeError
  end.

(** [registry.get(key, default)]. *)
Definition py_get {S} (registry : json) (key : string) (default : json) : M S json :=
  match registry with
  | JObj d => mret (dict_get_default d key default)
  | _ => raise AttributeError
  end.

(** [registry[key] = v], giving the dictionary after the assignment. *)
Definition py_setitem {S} (registry : json) (key : string) (v : json) : M S json :=
  match registry with
  | JObj d => mret (JObj (dict_set d key v))
  | _ => raise TypeError
  end.

(** ** Files

    A file is known by what [json.load] makes of its text. *)
Inductive content : Type :=
| Blank                 (* no text: what [open(path, 'w')] leaves *)
| Malformed             (* some other text that is not JSON *)
| Document (j : json).  (* the text [json.dump] writes for [j] *)

(** [json.load(open(path, 'r'))] on what is found at [path]. *)
Definition load_content {S} (c : option content) : M S json :=
  match c with
  | None => raise FileNotFoundError
  | Some Blank | Some Malformed => raise JSONDecodeError
  | Some (Document j) => mret j
  end.

(** [Path(__file__).parent.parent / "models" / "registry.json"], the same
    file from [training/] and from [inference/]. *)
Definition registry_path : string := "src/ml/models/registry.json".

End Py.

(* ================================================================== *)
(** * [training/update_registry.py] *)

Module Registry.
Import Json Py.

(** The lines the script prints, one constructor for each [print]. *)
Inductive line : Type :=
| RegistryNotFound (path : string)
    (* "Registry not found at {registry_path}" *)
| ModelNotFound (model_name : string)
    (* "Model '{model_name}' not found in registry" *)
| AvailableModels (keys : list string)
    (* "Available models: {list(registry.keys())}" *)
| Updated (model_name : string) (old_version : json) (new_version : string)
    (* "Updated {model_name}: {old_version} → {new_version}" *)
| RegistrySaved (path : string)
    (* "Registry saved to {registry_path}" *)
| Usage
    (* "Usage: python update_registry.py <model_name> <new_version>" *)
| ExampleHeader
    (* "\nExample:" *)
| ExampleCommand
    (* "  python update_registry.py embedding_model v1.1.0" *)
| VersionShouldStartWithV.
    (* "Version should start with 'v' (e.g., v1.0.0)" *)

(** What a run of the script can read and change. *)
Record world : Type := World {
  fs : gmap string content;
    (* the files, by path *)
  seen : list (gmap string content);
    (* states the files went through after the start, oldest first: what
       a reader of the files could have found meanwhile *)
  clock : string;
    (* [datetime.utcnow().isoformat()] at the moment it is called *)
  stdout : list line
}.

Definition print (l : line) : M world unit :=
  modify (λ w : world, World (fs w) (seen w) (clock w) (stdout w ++ [l])).

(** [path.exists()]. *)
Definition path_exists (path : string) : M world bool :=
  gets (λ w : world, bool_decide (is_Some (fs w !! path))).

(** [with open(path, 'r') as f: json.load(f)]. *)
Definition json_load (path : string) : M world json :=
  c ← gets (λ w : world, fs w !! path); load_content c.

Definition write_file (path : string) (c : content) : M world unit :=
  modify (λ w : world, let fs' := <[path := c]> (fs w) in
               World fs' (seen w ++ [fs']) (clock w) (stdout w)).

(** [with open(path, 'w') as f: json.dump(j, f, indent=2)]: opening for
    writing empties the file at [path] itself; the text reaches it when
    the writer is flushed, at the latest on leaving the [with] block.
    These are the two states every run goes through.  A text larger than
    the buffer of the writer reaches the file in parts: the states in
    which the file holds a part of the text are not listed. *)
Definition json_dump (j : json) (path : string) : M world unit :=
  write_file path Blank;;
  write_file path (Document j).

(** [datetime.utcnow().isoformat()]. *)
Definition utcnow_isoformat : M world string := gets clock.

Definition update_model_version (model_name new_version : string) : M world unit :=
  found ← path_exists registry_path;
  when (negb found) (
    print (RegistryNotFound registry_path);;
    sys_exit 1);;
  (* Load registry *)
  registry ← json_load registry_path;
  (* Validate model name *)
  known ← py_in model_name registry;
  when (negb known) (
    print (ModelNotFound model_name);;
    keys ← py_keys registry;
    print (AvailableModels keys);;
    sys_exit 1);;
  (* Update version *)
  old_version ← py_get registry model_name (JStr "unknown");
  registry ← py_setitem registry model_name (JStr new_version);
  now ← utcnow_isoformat;
  registry ← py_setitem registry "last_updated" (JStr (now +:+ "Z"));
  (* Save registry *)
  json_dump registry registry_path;;
  print (Updated model_name old_version new_version);;
  print (RegistrySaved registry_path).

(** [main], on [sys.argv]. *)
Definition main (argv : list string) : M world unit :=
  match argv with
  | [_; model_name; new_version] =>
      (* Validate version format *)
      new_version ←
        (if negb (PyStr.startswith "v" new_version)
         then print VersionShouldStartWithV;; mret ("v" +:+ new_version)
         else mret new_version);
      update_model_version model_name new_version
  | _ =>
      print Usage;;
      print ExampleHeader;;
      print ExampleCommand;;
      sys_exit 1
  end.

(** The dictionary the update leaves behind: the two assignments of
    [update_model_version] on [d]. *)
Definition updated (d : dict) (model_name new_version now : string) : dict :=
  dict_set (dict_set d model_name (JStr new_version))
    "last_updated" (JStr (now +:+ "Z")).

(** The version [main] hands to [update_model_version]. *)
Definition prefixed (new_version : string) : string :=
  if PyStr.startswith "v" new_version then new_version
  else "v" +:+ new_version.

(** What [main] prints before the update starts. *)
Definition warning (new_version : string) : list line :=
  if PyStr.startswith "v" new_version then [] else [VersionShouldStartWithV].

(** A run from the files [files] at time [now]. *)
Definition start (files : gmap string content) (now : string) : world :=
  World files [] now [].

(** What a reader of the files may find while a run from [w0] that ended
    in [w] was going on. *)
Definition observable (w0 w : world) : list (gmap string content) :=
  fs w0 :: seen w.

(** The data model of the spec on the flat document of the repository:
    the top-level keys [last_updated] and [metadata] are not models; the
    entries are the other keys. *)
Definition reserved (key : string) : bool :=
  bool_decide (key = "last_updated") || bool_decide (key = "metadata").

Definition entries (d : dict) : dict :=
  filter (λ kv, reserved kv.1 = false) d.

Definition metadata (d : dict) : option json := dict_get d "metadata".

(** Unfolds a run of the script into its result. *)
Ltac run_update :=
  unfold update_model_version, main, path_exists, json_load, json_dump,
    write_file, print, utcnow_isoformat, load_content, py_in, py_keys,
    py_get, py_setitem, when, sys_exit, raise, gets, modify,
    mbind, M_bind, mret, M_ret;
  simpl.

End Registry.

(* ================================================================== *)
(** * [inference/service.py]: the start-up hook *)

Module Service.
Import Json Py.

Inductive level : Type := INFO | WARNING | ERROR.

(** The records [load_models] hands to the logger. *)
Inductive message : Type :=
| Rule                                   (* "=" * 60 *)
| Starting                               (* "Starting SwasthyaSahayak ML Inference Service" *)
| RegistryLoaded                         (* "Model Registry Loaded:" *)
| ModelVersion (name : string) (version : json)
                                         (* "   • {name}: {version}" *)
| RegistryNotFound (path : string)       (* "Model registry not found at {registry_path}" *)
| EmptyLine                              (* "" *)
| LoadingModels                          (* "Loading ML models..." *)
| AllModelsLoaded                        (* "All models loaded successfully!" *)
| ErrorLoadingModels (e : exn).          (* "Error loading models: {e}" *)

Record world : Type := World {
  fs : gmap string content;
  ml_models : option exn;
    (* how loading the three models ends: nothing raised, or an exception *)
  model_versions : dict;
    (* the module-level [model_versions] *)
  log : list (level * message)
}.

Definition logger (lv : level) (m : message) : M world unit :=
  modify (λ w : world, World (fs w) (ml_models w) (model_versions w) (log w ++ [(lv, m)])).

Definition set_model_versions (d : dict) : M world unit :=
  modify (λ w : world, World (fs w) (ml_models w) d (log w)).

Definition path_exists (path : string) : M world bool :=
  gets (λ w : world, bool_decide (is_Some (fs w !! path))).

Definition json_load (path : string) : M world json :=
  c ← gets (λ w : world, fs w !! path); load_content c.

(** The three [Model.load(path)] or [Model()] calls of the hook, with
    their own log lines left out: library code, which ends as
    [ml_models] says. *)
Definition load_ml_models : M world unit :=
  r ← gets ml_models;
  match r : option exn with
  | None => mret tt
  | Some e => raise e
  end.

(** Load model registry *)
Definition load_registry : M world unit :=
  found ← path_exists registry_path;
  if found : bool then
    registry ← json_load registry_path;
    embedding ← py_get registry "embedding_model" (JStr "unknown");
    classifier ← py_get registry "emergency_classifier" (JStr "unknown");
    translation ← py_get registry "translation_model" (JStr "unknown");
    updated ← py_get registry "last_updated" (JStr "unknown");
    set_model_versions
      [("embedding_model", embedding);
       ("emergency_classifier", classifier);
       ("translation_model", translation);
       ("last_updated", updated)];;
    logger INFO RegistryLoaded;;
    versions ← gets model_versions;
    for_each versions (λ '(name, version),
      when (negb (bool_decide (name = "last_updated")))
        (logger INFO (ModelVersion name version)))
  else
    logger WARNING (RegistryNotFound registry_path);;
    set_model_versions
      [("embedding_model", JStr "v1.0.0");
       ("emergency_classifier", JStr "v1.0.0");
       ("translation_model", JStr "v1.0.0");
       ("last_updated", JStr "unknown")].

Definition load_models : M world unit :=
  try_except (
    logger INFO Rule;;
    logger INFO Starting;;
    logger INFO Rule;;
    load_registry;;
    logger INFO EmptyLine;;
    logger INFO LoadingModels;;
    load_ml_models;;
    logger INFO EmptyLine;;
    logger INFO Rule;;
    logger INFO AllModelsLoaded;;
    logger INFO Rule)
  (λ e,
    logger ERROR (ErrorLoadingModels e);;
    raise e).

(** The process as it starts: [model_versions: dict = {}], nothing logged. *)
Definition start (files : gmap string content) (ml : option exn) : world :=
  World files ml [] [].

(** The log of a start-up that found no registry, up to the loading of
    the models. *)
Definition log_without_registry : list (level * message) :=
  [(INFO, Rule); (INFO, Starting); (INFO, Rule);
   (WARNING, RegistryNotFound registry_path);
   (INFO, EmptyLine); (INFO, LoadingModels)].

(** The default version map of the spec. *)
Definition default_versions : dict :=
  [("embedding_model", JStr "v1.0.0");
   ("emergency_classifier", JStr "v1.0.0");
   ("translation_model", JStr "v1.0.0")].

(** Unfolds a run of the hook into its result. *)
Ltac run_startup :=
  unfold load_models, load_registry, load_ml_models, try_except,
    path_exists, json_load, load_content, set_model_versions, logger,
    py_get, raise, gets, modify, mbind, M_bind, mret, M_ret;
  simpl.

End Service.

(* ================================================================== *)
(** * A registry to run the code on *)

Module Samples.
Import Json Py.

(** The shape of [models/registry.json]. *)
Definition sample_registry : dict :=
  [("embedding_model", JStr "v1.0.0");
   ("emergency_classifier", JStr "v1.0.0");
   ("translation_model", JStr "v1.0.0");
   ("last_updated", JStr "2024-01-01T00:00:00Z");
   ("metadata",
    JObj [("embedding_model",
           JObj [("dimension", JInt 768); ("base", JStr "test-model")])])].

Definition sample_files : gmap string content :=
  {[ registry_path := Document (JObj sample_registry) ]}.

Definition sample_now : string := "2024-06-01T12:00:00".

End Samples.

(* ================================================================== *)
(** * Views of a registry used in the statements *)

Module Views.
Import Json.

(** The JSON values that are not a dictionary. *)
Definition is_object (j : json) : bool :=
  match j with JObj _ => true | _ => false end.

(** The version map the hook builds from a dictionary. *)
Definition exposed (d : dict) : dict :=
  (λ k, (k, dict_get_default d k (JStr "unknown"))) <$>
    ["embedding_model"; "emergency_classifier"; "translation_model";
     "last_updated"].

(** The log of a start-up that read the registry, up to the loading of
    the models. *)
Definition log_with_registry (d : dict) : list (Service.level * Service.message) :=
  [(Service.INFO, Service.Rule); (Service.INFO, Service.Starting); (Service.INFO, Service.Rule); (Service.INFO, Service.RegistryLoaded);
   (Service.INFO, Service.ModelVersion "embedding_model"
      (dict_get_default d "embedding_model" (JStr "unknown")));
   (Service.INFO, Service.ModelVersion "emergency_classifier"
      (dict_get_default d "emergency_classifier" (JStr "unknown")));
   (Service.INFO, Service.ModelVersion "translation_model"
      (dict_get_default d "translation_model" (JStr "unknown")));
   (Service.INFO, Service.EmptyLine); (Service.INFO, Service.LoadingModels)].

End Views.

(* ================================================================== *)
(** * Python code without a state *)

Module PyPure.
Import Py.

(** How a call that neither keeps a state nor ends the interpreter ends:
    it returns or it raises. *)
Inductive result (A : Type) : Type :=
| Ok (a : A)
| Err (e : exn).
Arguments Ok {A} a.
Arguments Err {A} e.

Global Instance result_ret : MRet result := λ A a, Ok a.
Global Instance result_bind : MBind result := λ A B k o,
  match o with
  | Ok a => k a
  | Err e => Err e
  end.

(** [[f(x) for x in xs]], given up at the first exception. *)
Fixpoint for_list {A B} (f : A → result B) (xs : list A) : result (list B) :=
  match xs with
  | [] => Ok []
  | x :: xs' => y ← f x; ys ← for_list f xs'; Ok (y :: ys)
  end.

Definition ValueError : exn := OtherError "ValueError".
Definition IndexError : exn := OtherError "IndexError".

(** A text with the characters it is made of: here a Python [str] is the
    list of its code points, of any size. *)
Abbreviation text := (list N).

(** An argument that is one text or a list of texts. *)
Inductive texts_arg : Type :=
| One (t : text)
| Many (ts : list text).

(** What a route handler gives back: a response, or the [HTTPException]
    it raises, with its status code and what its detail is made from. *)
Inductive http (A : Type) : Type :=
| Response (a : A)
| HTTPException (status_code : Z) (detail : string + exn).
Arguments Response {A} a.
Arguments HTTPException {A} status_code detail.

(** A call of such code from code that keeps a state: what it returns is
    returned, what it raises is raised. *)
Definition call {S A} (r : result A) : M S A :=
  match r with
  | Ok a => mret a
  | Err e => raise e
  end.

End PyPure.

(* ================================================================== *)
(** * Python integers and their decimal text *)

Module PyInt.
Import Py PyPure.

(** The value in base ten of a run of decimal digits, leading zeros
    allowed. *)
Definition of_digits (s : string) : N :=
  match NilEmpty.uint_of_string s with
  | Some d => N.of_uint d
  | None => 0%N
  end.

(** The decimal numeral of a number: no leading zero, and "0" for 0. *)
Definition to_digits (n : N) : string :=
  NilEmpty.string_of_uint (N.to_uint n).

(** [sys.get_int_max_str_digits()] as the interpreter starts.  CPython
    (3.11, and the later releases of 3.7 to 3.10) refuses to convert
    between [str] and [int] in base ten when more digits than this are
    involved; nothing in the repository changes the limit. *)
Definition max_str_digits : N := 4300.

(** A text of at most [max_str_digits] characters. *)
Definition within_limit (digits : string) : bool :=
  (N.of_nat (String.length digits) <=? max_str_digits)%N.

(** The numbers whose numeral has at most [max_str_digits] digits are the
    numbers below this one. *)
Definition int_str_bound : N := 10 ^ max_str_digits.

(** [int(s)] on a run of decimal digits: the integer, of any size, or
    [ValueError] when the run is longer than the limit (leading zeros
    count).  [int] is only ever applied to the groups of a successful
    match, which are digit runs. *)
Definition py_int (s : string) : result N :=
  if within_limit s then Ok (of_digits s) else Err ValueError.

(** [str(n)], as an f-string interpolates [{n}]: the numeral, or
    [ValueError] when it has more digits than the limit. *)
Definition py_str (n : N) : result string :=
  if within_limit (to_digits n) then Ok (to_digits n) else Err ValueError.

End PyInt.

(* ================================================================== *)
(** * The version pattern and the bump functions *)

Module Version.
Import Py PyPure PyStr PyInt.

(** ** A matcher for [re.match(r'v(\d+)\.(\d+)\.(\d+)', version)]

    [re.match] anchors at the start of the text only.  Each piece takes
    the text still to be read and gives back what is left.  [\d+] is
    greedy; as a digit is never a dot, giving back digits can never make a
    failed match succeed, so the longest run is the only candidate. *)

(** A literal character. *)
Definition re_lit (c : ascii) (s : string) : option string :=
  match s with
  | String c' s' => if Ascii.eqb c' c then Some s' else None
  | EmptyString => None
  end.

(** The longest run of digits at the start of [s], and the rest. *)
Fixpoint span_digits (s : string) : string * string :=
  match s with
  | EmptyString => (EmptyString, EmptyString)
  | String c s' =>
      if is_digit c
      then let (run, rest) := span_digits s' in (String c run, rest)
      else (EmptyString, s)
  end.

(** [(\d+)]: one digit at least. *)
Definition re_digits1 (s : string) : option (string * string) :=
  match span_digits s with
  | (EmptyString, _) => None
  | (run, rest) => Some (run, rest)
  end.

(** The match object: [groups()] and the text after [end()]. *)
Record re_match := ReMatch {
  group1 : string;
  group2 : string;
  group3 : string;
  after : string
}.

Definition match_version (version : string) : option re_match :=
  s1 ← re_lit "v" version;
  '(g1, s2) ← re_digits1 s1;
  s3 ← re_lit "." s2;
  '(g2, s4) ← re_digits1 s3;
  s5 ← re_lit "." s4;
  '(g3, s6) ← re_digits1 s5;
  Some (ReMatch g1 g2 g3 s6).

(** [major, minor, patch = map(int, match.groups())]: the three
    conversions are made when the tuple is unpacked, group by group. *)
Definition int_groups (m : re_match) : result (N * N * N) :=
  major ← py_int (group1 m);
  minor ← py_int (group2 m);
  patch ← py_int (group3 m);
  Ok (major, minor, patch).

Definition bump_patch (version : string) : result string :=
  match match_version version with
  | Some m =>
      '(major, minor, patch) ← int_groups m;
      (* f"v{major}.{minor}.{patch + 1}" *)
      major ← py_str major;
      minor ← py_str minor;
      patch ← py_str (patch + 1);
      Ok ("v" +:+ major +:+ "." +:+ minor +:+ "." +:+ patch)
  | None => Ok version
  end.

Definition bump_minor (version : string) : result string :=
  match match_version version with
  | Some m =>
      '(major, minor, patch) ← int_groups m;
      (* f"v{major}.{minor + 1}.0" *)
      major ← py_str major;
      minor ← py_str (minor + 1);
      Ok ("v" +:+ major +:+ "." +:+ minor +:+ ".0")
  | None => Ok version
  end.

Definition bump_major (version : string) : result string :=
  match match_version version with
  | Some m =>
      '(major, minor, patch) ← int_groups m;
      (* f"v{major + 1}.0.0" *)
      major ← py_str (major + 1);
      Ok ("v" +:+ major +:+ ".0.0")
  | None => Ok version
  end.

(** Modelled from the spec: [validate_version], which the repository does
    not define.  "true iff s matches v<digits>.<digits>.<digits>": the
    pattern has to cover the whole text. *)
Definition validate_version (s : string) : bool :=
  match match_version s with
  | Some m => match after m with EmptyString => true | _ => false end
  | None => false
  end.

(** [re.match(r'v\d+\.\d+\.\d+$', s)] of [test_registry_structure]: [$]
    stands for the end of the text or the place before a newline that ends
    the text. *)
Definition test_version_pattern (s : string) : bool :=
  match match_version s with
  | Some m =>
      match after m with
      | EmptyString => true
      | String c EmptyString => Ascii.eqb c "010"
      | _ => false
      end
  | None => false
  end.

(** The text of a version with the three given digit runs, followed by
    [rest]. *)
Definition version_text (g1 g2 g3 rest : string) : string :=
  "v" +:+ g1 +:+ "." +:+ g2 +:+ "." +:+ g3 +:+ rest.

(** Some prefix of [s] has the shape v<digits>.<digits>.<digits>. *)
Definition has_version_prefix (s : string) : Prop :=
  exists g1 g2 g3 rest,
    s = version_text g1 g2 g3 rest /\
    digit_run g1 = true /\ digit_run g2 = true /\ digit_run g3 = true.

(** The text of [n] nines: the largest numeral of [n] digits. *)
Definition nines (n : nat) : string :=
  string_of_list_ascii (replicate n "9"%char).

(** The version v<a>.<b>.<c> of three numbers, as a text. *)
Definition numbered (a b c : N) : string :=
  version_text (to_digits a) (to_digits b) (to_digits c) "".

(** What decides whether the conversions of a bump go through: the three
    numerals that [int] reads are within the limit, and so is the numeral
    of the number that has been incremented. *)
Definition convertible (g1 g2 g3 : string) (incremented : N) : bool :=
  within_limit g1 && within_limit g2 && within_limit g3 &&
  within_limit (to_digits incremented).

(** [n] calls of [bump_patch] in a row, each on what the one before has
    returned. *)
Fixpoint bump_patch_times (n : nat) (version : string) : result string :=
  match n with
  | O => Ok version
  | S n' => bumped ← bump_patch version; bump_patch_times n' bumped
  end.

End Version.

(* ================================================================== *)
(** * [training/train_embeddings.py]: the version bump after training *)

Module Trainer.
Import Json Py PyPure PyStr PyInt Version.

(** The two records the block hands to the logger. *)
Inductive message : Type :=
| VersionUpdated (current_version new_version : string)
    (* "Model version updated: {current_version} → {new_version}" *)
| FailedToUpdateRegistry (e : exn).
    (* "Failed to update registry: {e}" *)

Record world : Type := World {
  fs : gmap string content;
  clock : string;
    (* the time at which the child process asks for it *)
  stdout : list Registry.line;
    (* what the child process prints: it inherits the standard output *)
  log : list (Service.level * message)
}.

Definition logger (lv : Service.level) (m : message) : M world unit :=
  modify (λ w : world, World (fs w) (clock w) (stdout w) (log w ++ [(lv, m)])).

Definition path_exists (path : string) : M world bool :=
  gets (λ w : world, bool_decide (is_Some (fs w !! path))).

Definition json_load (path : string) : M world json :=
  c ← gets (λ w : world, fs w !! path); load_content c.

(** What [subprocess.run(..., check=True)] raises on a status other
    than 0. *)
Definition CalledProcessError : exn := OtherError "CalledProcessError".

(** [subprocess.run(['python', '.../update_registry.py', *args],
    check=True)]: the script runs to its end on the same files, with the
    script path as [sys.argv[0]]; the interpreter is taken to be there. *)
Definition subprocess_run_update_registry (args : list string) : M world unit :=
  λ w,
    let r := Registry.main ("training/update_registry.py" :: args)
               (Registry.start (fs w) (clock w)) in
    let w' := World (Registry.fs r.2) (clock w)
                (stdout w ++ Registry.stdout r.2) (log w) in
    if decide (exit_status r.1 = 0%Z) then (Return tt, w')
    else (Raise CalledProcessError, w').

(** The block "Auto-update model registry" of [train], which runs after
    the model has been fitted and saved.  [enabled] is the truth value of
    [self.config['training'].get('auto_version_bump', True)]. *)
Definition auto_version_bump (enabled : bool) : M world unit :=
  when enabled (
    (* Extract current version from registry *)
    found ← path_exists registry_path;
    when found (
      registry ← json_load registry_path;
      current_version ← py_get registry "embedding_model" (JStr "v1.0.0");
      match current_version : json with
      | JStr current_version =>
          (* Bump patch version *)
          match match_version current_version with
          | Some m =>
              (* the conversions come before the [try]: what they raise
                 leaves the block *)
              '(major, minor, patch) ← call (int_groups m);
              major ← call (py_str major);
              minor ← call (py_str minor);
              patch ← call (py_str (patch + 1));
              let new_version := "v" +:+ major +:+ "." +:+ minor +:+ "." +:+ patch in
              (* Update registry *)
              try_except (
                subprocess_run_update_registry ["embedding_model"; new_version];;
                logger Service.INFO (VersionUpdated current_version new_version))
              (λ e,
                logger Service.WARNING (FailedToUpdateRegistry e))
          | None => mret tt
          end
      | _ => raise TypeError  (* [re.match] on a value that is not a string *)
      end)).

(** The trainer as it reaches the block. *)
Definition start (files : gmap string content) (now : string) : world :=
  World files now [] [].

(** One training run after another, each at its own time, each starting
    from the files the run before has left. *)
Fixpoint train_runs (times : list string) (files : gmap string content)
  : gmap string content :=
  match times with
  | [] => files
  | now :: times' =>
      train_runs times' (fs (auto_version_bump true (start files now)).2)
  end.

(** Unfolds a run of the block into its result. *)
Ltac run_bump :=
  unfold auto_version_bump, try_except, path_exists, json_load,
    load_content, logger, py_get, when, call, raise, gets, modify,
    mbind, M_bind, mret, M_ret;
  simpl.

End Trainer.

(* ================================================================== *)
(** * [models/translation_model.py] *)

Module Translation.
Import Py PyPure.

Inductive language : Type := english | hindi | odia | assamese.

(** The dictionary [LANG_CODES]. *)
Definition LANG_CODES (lang : language) : string :=
  match lang with
  | english => "en"
  | hindi => "hi"
  | odia => "or"
  | assamese => "as"
  end.

(** The dictionary [UNICODE_PATTERNS], in its order; each pattern is one
    range of code points. *)
Definition UNICODE_PATTERNS : list (language * (N * N)) :=
  [(odia, (0x0B00, 0x0B7F)); (hindi, (0x0900, 0x097F));
   (assamese, (0x0980, 0x09FF))]%N.

Definition in_range (range : N * N) (c : N) : bool :=
  ((range.1 <=? c) && (c <=? range.2))%N.

(** [re.search('[lo-hi]', text)], as a truth value. *)
Definition re_search (range : N * N) (t : text) : bool :=
  existsb (in_range range) t.

(** The loop of [detect_language] over the patterns. *)
Fixpoint detect_in (patterns : list (language * (N * N))) (t : text) : string :=
  match patterns with
  | [] => "en"  (* Default to English *)
  | (lang, pattern) :: rest =>
      if re_search pattern t then LANG_CODES lang else detect_in rest t
  end.

Definition detect_language (t : text) : string :=
  detect_in UNICODE_PATTERNS t.

(** The tokenizer and the model of a [TranslationModel]: which of the two
    attributes the tokenizer has, and what tokenizing, generating and
    decoding give for a text, given the source language set on the
    tokenizer (if it has [src_lang]), the target language forced on the
    generation (if it has [get_lang_id]) and [max_length]. *)
Record backend : Type := Backend {
  has_src_lang : bool;
  has_get_lang_id : bool;
  generate : option string → option string → Z → text → result text
}.

(** The body of the loop of [translate] for one text. *)
Definition translate_one (b : backend) (source_lang : option string)
    (target_lang : string) (max_length : Z) (t : text) : result text :=
  (* Auto-detect source language if not provided *)
  let detected_lang :=
    match source_lang with
    | None => detect_language t
    | Some l => l
    end in
  (* Skip translation if source and target are the same *)
  if decide (detected_lang = target_lang) then Ok t
  else
    generate b
      (if has_src_lang b then Some detected_lang else None)
      (if has_get_lang_id b then Some target_lang else None)
      max_length t.

Definition translate (b : backend) (texts : texts_arg)
    (source_lang : option string) (target_lang : string) (max_length : Z)
  : result texts_arg :=
  match texts with
  | One t =>
      translated ← for_list (translate_one b source_lang target_lang max_length) [t];
      match translated with
      | x :: _ => Ok (One x)
      | [] => Err IndexError
      end
  | Many ts =>
      translated ← for_list (translate_one b source_lang target_lang max_length) ts;
      Ok (Many translated)
  end.

Definition translate_to_english (b : backend) (t : text) : result texts_arg :=
  translate b (One t) None "en" 512.

Definition translate_from_english (b : backend) (t : text) (target_lang : string)
  : result texts_arg :=
  translate b (One t) (Some "en") target_lang 512.

(** The language whose code is found first in [UNICODE_PATTERNS], of two
    codes that [detect_language] can return. *)
Definition stronger (a b : string) : string :=
  if decide (a = "or" ∨ b = "or") then "or"
  else if decide (a = "hi" ∨ b = "hi") then "hi"
  else if decide (a = "as" ∨ b = "as") then "as"
  else "en".

(** A code point of the blocks Devanagari and Bengali (U+0900 to U+09FF)
    or Oriya (U+0B00 to U+0B7F). *)
Definition indic (c : N) : bool :=
  in_range (0x0900, 0x09FF)%N c || in_range (0x0B00, 0x0B7F)%N c.

End Translation.

(* ================================================================== *)
(** * [models/embedding_model.py] *)

Module Embedding.
Import Py PyPure.

(** A two-dimensional array: its number of columns and its rows.  What a
    row holds is left open. *)
Record array (row : Type) : Type := Array {
  ncols : nat;
  rows : list row
}.
Arguments Array {row} ncols rows.
Arguments ncols {row} a.
Arguments rows {row} a.

(** [np.vstack(arrays)]: at least one array, all of one width. *)
Definition np_vstack {row} (arrays : list (array row)) : result (array row) :=
  match arrays with
  | [] => Err ValueError
  | a :: rest =>
      if forallb (λ a', bool_decide (ncols a' = ncols a)) rest
      then Ok (Array (ncols a) (concat (rows <$> arrays)))
      else Err ValueError
  end.

(** [list(range(0, stop, step))]. *)
Definition py_range (stop : nat) (step : Z) : result (list nat) :=
  if decide (step = 0)%Z then Err ValueError
  else if decide (step < 0)%Z then Ok []
  else
    let s := Z.to_nat step in
    Ok ((λ k, k * s) <$> seq 0 ((stop + s - 1) `div` s)).

(** [texts[i:i + batch_size]] for a positive [batch_size]. *)
Definition batch_at {A} (texts : list A) (batch_size : Z) (i : nat) : list A :=
  take (Z.to_nat batch_size) (drop i texts).

(** [encode], on a list of texts.  [forward normalize batch] stands for
    the tokenizer, the model, the pooling and the normalisation on one
    batch: library code that gives an array or raises. *)
Definition encode {row} (forward : bool → list text → result (array row))
    (texts : list text) (batch_size : Z) (normalize : bool)
  : result (array row) :=
  starts ← py_range (length texts) batch_size;
  embeddings ← for_list (λ i, forward normalize (batch_at texts batch_size i)) starts;
  np_vstack embeddings.

(** [encode] on one text or on a list. *)
Definition encode_arg {row} (forward : bool → list text → result (array row))
    (texts : texts_arg) (batch_size : Z) (normalize : bool)
  : result (array row) :=
  match texts with
  | One t => encode forward [t] batch_size normalize
  | Many ts => encode forward ts batch_size normalize
  end.

End Embedding.

(* ================================================================== *)
(** * [inference/service.py]: the routes *)

Module Routes.
Import Py PyPure.

(** The records the routes hand to the logger. *)
Inductive message : Type :=
| EmbeddingError (e : exn)              (* "Embedding error: {e}" *)
| BatchRequest (n : nat)                (* "Batch embedding request: {n} texts" *)
| BatchGenerated (n : nat)              (* "Generated {n} embeddings" *)
| BatchEmbeddingError (e : exn)         (* "Batch embedding error: {e}" *)
| TranslationError (e : exn).           (* "Translation error: {e}" *)

Record EmbedRequest : Type := {
  embed_texts : list text;
  embed_model : string;
  embed_normalize : bool
}.

Record EmbedResponse (row : Type) : Type := {
  embeddings : list row;
  dimension : nat;
  model : string
}.
Arguments embeddings {row} e.
Arguments dimension {row} e.
Arguments model {row} e.

Record TranslateRequest : Type := {
  translate_texts : list text;
  source_lang : option string;
  target_lang : string
}.

Record TranslateResponse : Type := {
  translations : list text;
  detected_languages : list string
}.

(** A handler gives what it has logged and what it answers.  This is
    the [try] block of a handler: [except Exception as e] logs the error
    and raises an [HTTPException] with status 500 and [str(e)]. *)
Definition answer {A B} (o : result A) (on_error : exn → message)
    (k : A → list (Service.level * message) * http B)
  : list (Service.level * message) * http B :=
  match o with
  | Ok a => k a
  | Err e => ([(Service.ERROR, on_error e)], HTTPException 500 (inr e))
  end.

(** [generate_embeddings]; the loaded model is [None] or its forward
    pass. *)
Definition generate_embeddings {row}
    (embedding_model : option (bool → list text → result (Embedding.array row)))
    (request : EmbedRequest)
  : list (Service.level * message) * http (EmbedResponse row) :=
  match embedding_model with
  | None => ([], HTTPException 503 (inl "Embedding model not loaded"))
  | Some forward =>
      answer
        (Embedding.encode forward (embed_texts request) 32
           (embed_normalize request))
        EmbeddingError
        (λ a, ([], Response
                 {| embeddings := Embedding.rows a;
                    dimension := Embedding.ncols a;
                    model := embed_model request |}))
  end.

(** [generate_embeddings_batch]. *)
Definition generate_embeddings_batch {row}
    (embedding_model : option (bool → list text → result (Embedding.array row)))
    (request : EmbedRequest)
  : list (Service.level * message) * http (EmbedResponse row) :=
  match embedding_model with
  | None => ([], HTTPException 503 (inl "Embedding model not loaded"))
  | Some forward =>
      let started := [(Service.INFO, BatchRequest (length (embed_texts request)))] in
      let '(logged, result) :=
        answer
          (Embedding.encode forward (embed_texts request) 32
             (embed_normalize request))
          BatchEmbeddingError
          (λ a, ([(Service.INFO, BatchGenerated (length (Embedding.rows a)))],
                 Response
                   {| embeddings := Embedding.rows a;
                      dimension := Embedding.ncols a;
                      model := embed_model request |})) in
      (started ++ logged, result)
  end.

(** [translate_text]. *)
Definition translate_text (translation_model : option Translation.backend)
    (request : TranslateRequest)
  : list (Service.level * message) * http TranslateResponse :=
  match translation_model with
  | None => ([], HTTPException 503 (inl "Translation model not loaded"))
  | Some b =>
      (* Detect languages if not provided *)
      let detected_langs :=
        match source_lang request with
        | None => Translation.detect_language <$> translate_texts request
        | Some l => replicate (length (translate_texts request)) l
        end in
      (* Translate *)
      answer
        (Translation.translate b (Many (translate_texts request))
           (source_lang request) (target_lang request) 512)
        TranslationError
        (λ translations,
           let translations :=
             match translations with
             | One t => [t]
             | Many ts => ts
             end in
           ([], Response {| translations := translations;
                            detected_languages := detected_langs |}))
  end.

End Routes.

(* ================================================================== *)
(** * Facts about the version pattern and the bump functions *)

Module VersionFacts.
Import Py PyPure PyStr PyInt Version.

Lemma append_cons c s t : String c s +:+ t = String c (s +:+ t).
Proof. reflexivity. Qed.

Lemma append_nil_l s : "" +:+ s = s.
Proof. reflexivity. Qed.

Lemma append_nil s : s +:+ "" = s.
Proof. induction s as [|c s IH]; [done|]. by rewrite append_cons, IH. Qed.

(** ** Decimal text of a number *)

Lemma all_digits_string_of_uint d :
  all_digits (NilEmpty.string_of_uint d) = true.
Proof. induction d; simpl; auto. Qed.

Lemma to_uint_not_nil n : N.to_uint n ≠ Nil.
Proof.
  destruct n as [|p]; simpl; [discriminate|].
  apply DecimalPos.Unsigned.to_uint_nonnil.
Qed.

Lemma digit_run_to_digits n : digit_run (to_digits n) = true.
Proof.
  unfold to_digits. pose proof (to_uint_not_nil n) as Hn.
  pose proof (all_digits_string_of_uint (N.to_uint n)) as Hd.
  destruct (N.to_uint n); try done.
Qed.

Lemma of_digits_to_digits n : of_digits (to_digits n) = n.
Proof.
  unfold of_digits, to_digits. rewrite NilEmpty.usu.
  apply DecimalN.Unsigned.of_to.
Qed.

Example of_digits_leading_zeros : of_digits "0042" = 42%N.
Proof. reflexivity. Qed.

Example to_digits_ten : to_digits 10 = "10".
Proof. reflexivity. Qed.

(** ** The number of digits and the size of the number *)

(** The value of a numeral, from its first digit and the rest. *)
Lemma of_uint_eqn d :
  d ≠ Nil →
  N.of_uint d =
    (DecimalPos.Unsigned.hd d * 10 ^ DecimalPos.Unsigned.usize (DecimalPos.Unsigned.tl d)
     + N.of_uint (DecimalPos.Unsigned.tl d))%N.
Proof.
  intros Hd. unfold N.of_uint. rewrite !DecimalPos.Unsigned.of_uint_alt.
  destruct d; try done; unfold Decimal.rev at 1; simpl revapp;
    rewrite DecimalPos.Unsigned.of_lu_revapp;
    cbn [DecimalPos.Unsigned.of_lu DecimalPos.Unsigned.hd DecimalPos.Unsigned.tl];
    lia.
Qed.

(** A numeral of [k] digits is below 10^k. *)
Lemma of_uint_lt d : (N.of_uint d < 10 ^ DecimalPos.Unsigned.usize d)%N.
Proof.
  induction d; [by vm_compute|..];
    (rewrite of_uint_eqn by done;
     simpl DecimalPos.Unsigned.hd; simpl DecimalPos.Unsigned.tl;
     simpl DecimalPos.Unsigned.usize;
     rewrite N.pow_succ_r'; lia).
Qed.

(** A numeral of [k + 1] digits whose first digit is not 0 is 10^k at
    least. *)
Lemma of_uint_ge d :
  DecimalPos.Unsigned.hd d ≠ 0%N →
  (10 ^ DecimalPos.Unsigned.usize (DecimalPos.Unsigned.tl d) ≤ N.of_uint d)%N.
Proof.
  intros Hd. destruct d; try done;
    (rewrite of_uint_eqn by done;
     simpl DecimalPos.Unsigned.hd; simpl DecimalPos.Unsigned.tl; lia).
Qed.

(** The numeral of a positive number does not start with 0. *)
Lemma to_uint_hd p : DecimalPos.Unsigned.hd (Pos.to_uint p) ≠ 0%N.
Proof.
  pose proof (DecimalPos.Unsigned.to_uint_nonzero p) as Hz.
  pose proof (DecimalPos.Unsigned.to_uint_nonnil p) as Hn.
  pose proof (DecimalN.Unsigned.to_of (N.to_uint (N.pos p))) as Hu.
  rewrite DecimalN.Unsigned.of_to in Hu. simpl in Hu.
  destruct (Pos.to_uint p) as [|u| | | | | | | | |] eqn:E; [done| |done..].
  exfalso. rewrite unorm_D0 in Hu.
  pose proof (nzhead_nonzero u) as Hnz. unfold unorm in Hu.
  destruct (nzhead u) as [|u'| | | | | | | | |] eqn:E'; try done.
  by destruct (Hnz u').
Qed.

Lemma length_string_of_uint d :
  N.of_nat (String.length (NilEmpty.string_of_uint d)) =
    DecimalPos.Unsigned.usize d.
Proof.
  induction d; simpl String.length; simpl DecimalPos.Unsigned.usize; lia.
Qed.

(** The numerals within the limit are those of the numbers below
    [int_str_bound]. *)
Lemma within_limit_to_digits n :
  within_limit (to_digits n) = (n <? int_str_bound)%N.
Proof.
  unfold within_limit, to_digits, int_str_bound.
  rewrite length_string_of_uint.
  destruct n as [|p]; [by vm_compute|].
  pose proof (to_uint_hd p) as Hhd.
  pose proof (of_uint_ge _ Hhd) as Hge.
  pose proof (of_uint_lt (Pos.to_uint p)) as Hlt.
  pose proof (DecimalN.Unsigned.of_to (N.pos p)) as Hp. simpl N.to_uint in *.
  rewrite Hp in Hge, Hlt.
  assert (DecimalPos.Unsigned.usize (Pos.to_uint p) =
          N.succ (DecimalPos.Unsigned.usize
                    (DecimalPos.Unsigned.tl (Pos.to_uint p)))) as Hs.
  { destruct (Pos.to_uint p); try done. }
  destruct (N.leb_spec (DecimalPos.Unsigned.usize (Pos.to_uint p))
              max_str_digits) as [Hle|Hgt]; symmetry.
  - apply N.ltb_lt. eapply N.lt_le_trans; [exact Hlt|].
    apply N.pow_le_mono_r; [done|exact Hle].
  - apply N.ltb_ge. etrans; [|exact Hge].
    apply N.pow_le_mono_r; [done|]. lia.
Qed.

(** [int] never meets a text it cannot read among the groups of a match:
    a run of digits is a decimal numeral, with as many digits. *)
Lemma uint_of_string_digits s :
  all_digits s = true →
  ∃ d, NilEmpty.uint_of_string s = Some d ∧
       DecimalPos.Unsigned.usize d = N.of_nat (String.length s).
Proof.
  induction s as [|c s IH]; simpl; [by eexists|].
  intros [Hc Hs]%andb_true_iff. destruct (IH Hs) as (d & -> & Hlen).
  destruct c as [[] [] [] [] [] [] [] []]; vm_compute in Hc;
    try discriminate Hc; eexists; (split; [reflexivity|]);
    simpl DecimalPos.Unsigned.usize; lia.
Qed.

Lemma digit_run_all_digits s : digit_run s = true → all_digits s = true.
Proof. by destruct s. Qed.

(** What [int] reads within the limit is below [int_str_bound]. *)
Lemma of_digits_bound s :
  digit_run s = true → within_limit s = true →
  (of_digits s < int_str_bound)%N.
Proof.
  intros Hs%digit_run_all_digits Hl.
  destruct (uint_of_string_digits s Hs) as (d & Hd & Hlen).
  unfold of_digits. rewrite Hd.
  eapply N.lt_le_trans; [apply of_uint_lt|].
  apply N.pow_le_mono_r; [done|]. rewrite Hlen.
  by apply N.leb_le.
Qed.

(** ** [int] and [str] *)

Lemma py_str_eq n :
  py_str n =
    if (n <? int_str_bound)%N then Ok (to_digits n) else Err ValueError.
Proof. unfold py_str. by rewrite within_limit_to_digits. Qed.

Lemma py_str_lt n : (n < int_str_bound)%N → py_str n = Ok (to_digits n).
Proof. intros H%N.ltb_lt. by rewrite py_str_eq, H. Qed.

Lemma py_str_ge n : (int_str_bound ≤ n)%N → py_str n = Err ValueError.
Proof. intros H%N.ltb_ge. by rewrite py_str_eq, H. Qed.

Lemma py_int_to_digits n :
  (n < int_str_bound)%N → py_int (to_digits n) = Ok n.
Proof.
  intros H%N.ltb_lt. unfold py_int.
  by rewrite within_limit_to_digits, H, of_digits_to_digits.
Qed.

(** Python integers have no bound of their own; the two conversions
    have. *)
Example int_str_roundtrip :
  py_int "0042" = Ok 42%N ∧ py_str 42 = Ok "42" ∧
  py_int (nines 4300) = Ok (int_str_bound - 1)%N ∧
  py_int (nines 4301) = Err ValueError ∧
  py_str (int_str_bound - 1) = Ok (nines 4300) ∧
  py_str int_str_bound = Err ValueError.
Proof. by vm_compute. Qed.

(** The assertions of [test_version_bump_logic]. *)
Example test_version_bump_logic :
  bump_patch "v1.0.0" = Ok "v1.0.1" ∧ bump_patch "v1.0.9" = Ok "v1.0.10" ∧
  bump_minor "v1.0.5" = Ok "v1.1.0" ∧ bump_minor "v2.9.3" = Ok "v2.10.0" ∧
  bump_major "v1.5.3" = Ok "v2.0.0" ∧ bump_major "v9.9.9" = Ok "v10.0.0".
Proof. by vm_compute. Qed.

(** ** The digit span *)

Lemma span_digits_spec s :
  s = (span_digits s).1 +:+ (span_digits s).2 ∧
  all_digits (span_digits s).1 = true ∧
  starts_with_digit (span_digits s).2 = false.
Proof.
  induction s as [|c s (IH1 & IH2 & IH3)]; [done|].
  simpl. destruct (is_digit c) eqn:Hc.
  - destruct (span_digits s) as [run rest]; simpl in *.
    rewrite append_cons, Hc. by rewrite <- IH1.
  - simpl. by rewrite Hc.
Qed.

Lemma span_digits_app run rest :
  all_digits run = true →
  span_digits (run +:+ rest) =
    (run +:+ (span_digits rest).1, (span_digits rest).2).
Proof.
  induction run as [|c run IH]; intros Hrun.
  - rewrite append_nil_l. by destruct (span_digits rest).
  - simpl in Hrun. apply andb_true_iff in Hrun as [Hc Hrun].
    rewrite append_cons. simpl. rewrite Hc, (IH Hrun). done.
Qed.

Lemma span_digits_stop s :
  starts_with_digit s = false → span_digits s = ("", s).
Proof. destruct s as [|c s]; simpl; [done|]. by intros ->. Qed.

Lemma is_digit_dot : is_digit "." = false.
Proof. reflexivity. Qed.

Lemma re_digits1_run run rest :
  digit_run run = true →
  re_digits1 (run +:+ rest) =
    Some (run +:+ (span_digits rest).1, (span_digits rest).2).
Proof.
  intros Hrun. unfold re_digits1.
  rewrite span_digits_app by by apply digit_run_all_digits.
  destruct run; [done|]. by rewrite append_cons.
Qed.

Lemma re_digits1_run_dot run rest :
  digit_run run = true →
  re_digits1 (run +:+ "." +:+ rest) = Some (run, String "." rest).
Proof.
  intros Hrun. rewrite re_digits1_run by done.
  rewrite append_cons, append_nil_l.
  rewrite span_digits_stop by done. simpl. by rewrite append_nil.
Qed.

Lemma re_digits1_inv s run rest :
  re_digits1 s = Some (run, rest) →
  s = run +:+ rest ∧ digit_run run = true ∧ starts_with_digit rest = false.
Proof.
  unfold re_digits1. pose proof (span_digits_spec s) as (H1 & H2 & H3).
  destruct (span_digits s) as [r t]; simpl in *.
  destruct r; [done|]. intros [= <- <-]. done.
Qed.

Lemma re_lit_inv c s rest : re_lit c s = Some rest → s = String c rest.
Proof.
  destruct s as [|c' s]; simpl; [done|].
  destruct (Ascii.eqb_spec c' c); [|done]. by intros [= <-]; subst.
Qed.

(** ** The matcher against the shape of the text *)

(** On a text that starts with a version, the match takes the longest
    such prefix: digits that follow the patch number belong to it. *)
Lemma match_version_text g1 g2 g3 rest :
  digit_run g1 = true → digit_run g2 = true → digit_run g3 = true →
  match_version (version_text g1 g2 g3 rest) =
    Some (ReMatch g1 g2 (g3 +:+ (span_digits rest).1) (span_digits rest).2).
Proof.
  intros H1 H2 H3. unfold match_version, version_text.
  rewrite append_cons, append_nil_l. simpl.
  rewrite (re_digits1_run_dot g1) by done. simpl.
  rewrite (re_digits1_run_dot g2) by done. simpl.
  rewrite (re_digits1_run g3) by done. done.
Qed.

Lemma match_version_inv s m :
  match_version s = Some m →
  s = version_text (group1 m) (group2 m) (group3 m) (after m) ∧
  digit_run (group1 m) = true ∧ digit_run (group2 m) = true ∧
  digit_run (group3 m) = true ∧ starts_with_digit (after m) = false.
Proof.
  unfold match_version. intros H.
  destruct (re_lit "v" s) as [s1|] eqn:E1; simpl in H; [|done].
  destruct (re_digits1 s1) as [[g1 s2]|] eqn:E2; simpl in H; [|done].
  destruct (re_lit "." s2) as [s3|] eqn:E3; simpl in H; [|done].
  destruct (re_digits1 s3) as [[g2 s4]|] eqn:E4; simpl in H; [|done].
  destruct (re_lit "." s4) as [s5|] eqn:E5; simpl in H; [|done].
  destruct (re_digits1 s5) as [[g3 s6]|] eqn:E6; simpl in H; [|done].
  injection H as <-. simpl.
  apply re_lit_inv in E1, E3, E5.
  apply re_digits1_inv in E2 as (-> & ? & _), E4 as (-> & ? & _),
    E6 as (-> & ? & ?).
  subst. unfold version_text. done.
Qed.

Lemma match_version_none s :
  ¬ has_version_prefix s → match_version s = None.
Proof.
  intros Hno. destruct (match_version s) as [m|] eqn:E; [|done].
  apply match_version_inv in E as (? & ? & ? & ? & _).
  exfalso. apply Hno. by exists (group1 m), (group2 m), (group3 m), (after m).
Qed.

End VersionFacts.

(* ================================================================== *)
(** * The bump policy *)

Module BumpPolicy.
Import Py PyPure PyStr PyInt Version VersionFacts.

Lemma int_groups_eq m :
  int_groups m =
    if within_limit (group1 m) && within_limit (group2 m) &&
       within_limit (group3 m)
    then Ok (of_digits (group1 m), of_digits (group2 m), of_digits (group3 m))
    else Err ValueError.
Proof.
  unfold int_groups, py_int.
  by destruct (within_limit (group1 m)), (within_limit (group2 m)),
    (within_limit (group3 m)).
Qed.

(** ** The three functions on a text that matches

    Each one goes through exactly when its conversions do, and then
    returns the text of three numbers. *)
Section OnAMatch.
Variable s : string.
Variable m : re_match.
Hypothesis matched : match_version s = Some m.

Lemma groups_bound :
  within_limit (group1 m) && within_limit (group2 m) &&
    within_limit (group3 m) = true →
  (of_digits (group1 m) <? int_str_bound)%N = true ∧
  (of_digits (group2 m) <? int_str_bound)%N = true ∧
  (of_digits (group3 m) <? int_str_bound)%N = true.
Proof.
  destruct (match_version_inv _ _ matched) as (_ & H1 & H2 & H3 & _).
  intros [[L1 L2]%andb_true_iff L3]%andb_true_iff.
  rewrite !N.ltb_lt. by repeat split; apply of_digits_bound.
Qed.

Lemma bump_patch_matched :
  bump_patch s =
    if convertible (group1 m) (group2 m) (group3 m) (of_digits (group3 m) + 1)
    then Ok (numbered (of_digits (group1 m)) (of_digits (group2 m))
               (of_digits (group3 m) + 1))
    else Err ValueError.
Proof.
  unfold bump_patch, convertible.
  rewrite matched, int_groups_eq, within_limit_to_digits.
  pose proof groups_bound as Hb.
  destruct (within_limit (group1 m) && within_limit (group2 m) &&
            within_limit (group3 m)); [|done].
  destruct Hb as (B1 & B2 & B3); [done|].
  cbn [mbind result_bind andb]. rewrite !py_str_eq, B1. cbn [mbind result_bind].
  rewrite B2. cbn [mbind result_bind].
  destruct (of_digits (group3 m) + 1 <? int_str_bound)%N; [|done].
  cbn [mbind result_bind]. unfold numbered, version_text.
  by rewrite append_nil.
Qed.

Lemma bump_minor_matched :
  bump_minor s =
    if convertible (group1 m) (group2 m) (group3 m) (of_digits (group2 m) + 1)
    then Ok (numbered (of_digits (group1 m)) (of_digits (group2 m) + 1) 0)
    else Err ValueError.
Proof.
  unfold bump_minor, convertible.
  rewrite matched, int_groups_eq, within_limit_to_digits.
  pose proof groups_bound as Hb.
  destruct (within_limit (group1 m) && within_limit (group2 m) &&
            within_limit (group3 m)); [|done].
  destruct Hb as (B1 & B2 & B3); [done|].
  cbn [mbind result_bind andb]. rewrite !py_str_eq, B1. cbn [mbind result_bind].
  by destruct (of_digits (group2 m) + 1 <? int_str_bound)%N.
Qed.

Lemma bump_major_matched :
  bump_major s =
    if convertible (group1 m) (group2 m) (group3 m) (of_digits (group1 m) + 1)
    then Ok (numbered (of_digits (group1 m) + 1) 0 0)
    else Err ValueError.
Proof.
  unfold bump_major, convertible.
  rewrite matched, int_groups_eq, within_limit_to_digits.
  destruct (within_limit (group1 m) && within_limit (group2 m) &&
            within_limit (group3 m)); [|done].
  cbn [mbind result_bind andb]. rewrite !py_str_eq.
  by destruct (of_digits (group1 m) + 1 <? int_str_bound)%N.
Qed.
End OnAMatch.

(** ** On the text of three numbers *)

Lemma match_version_numbered a b c :
  match_version (numbered a b c) =
    Some (ReMatch (to_digits a) (to_digits b) (to_digits c) "").
Proof.
  unfold numbered.
  rewrite match_version_text by apply digit_run_to_digits.
  simpl. by rewrite append_nil.
Qed.

Lemma convertible_numbered a b c n :
  convertible (to_digits a) (to_digits b) (to_digits c) n =
    (a <? int_str_bound)%N && (b <? int_str_bound)%N &&
    (c <? int_str_bound)%N && (n <? int_str_bound)%N.
Proof. unfold convertible. by rewrite !within_limit_to_digits. Qed.

Section OnThreeNumbers.
Variables a b c : N.
Hypothesis bound_a : (a < int_str_bound)%N.
Hypothesis bound_b : (b < int_str_bound)%N.
Hypothesis bound_c : (c < int_str_bound)%N.

Lemma convertible_bounded n :
  convertible (to_digits a) (to_digits b) (to_digits c) n =
    (n <? int_str_bound)%N.
Proof.
  rewrite convertible_numbered.
  apply N.ltb_lt in bound_a, bound_b, bound_c.
  by rewrite bound_a, bound_b, bound_c.
Qed.

Lemma bump_patch_numbered :
  bump_patch (numbered a b c) =
    if (c + 1 <? int_str_bound)%N then Ok (numbered a b (c + 1))
    else Err ValueError.
Proof.
  rewrite (bump_patch_matched _ _ (match_version_numbered a b c)).
  cbn [group1 group2 group3].
  by rewrite !of_digits_to_digits, convertible_bounded.
Qed.

Lemma bump_minor_numbered :
  bump_minor (numbered a b c) =
    if (b + 1 <? int_str_bound)%N then Ok (numbered a (b + 1) 0)
    else Err ValueError.
Proof.
  rewrite (bump_minor_matched _ _ (match_version_numbered a b c)).
  cbn [group1 group2 group3].
  by rewrite !of_digits_to_digits, convertible_bounded.
Qed.

Lemma bump_major_numbered :
  bump_major (numbered a b c) =
    if (a + 1 <? int_str_bound)%N then Ok (numbered (a + 1) 0 0)
    else Err ValueError.
Proof.
  rewrite (bump_major_matched _ _ (match_version_numbered a b c)).
  cbn [group1 group2 group3].
  by rewrite !of_digits_to_digits, convertible_bounded.
Qed.
End OnThreeNumbers.

(** C4, refuted.  The version v1.0.<c> with [c] the number written as 4300
    nines is the text of three non-negative integers, and [bump_patch]
    does not return v1.0.<c+1> on it: [int] accepts the 4300 digits, and
    the f-string raises [ValueError] on [c + 1], which has 4301. *)
Lemma bump_patch_beyond_limit :
  numbered 1 0 (int_str_bound - 1) = "v1.0." +:+ nines 4300 ∧
  int_groups (ReMatch "1" "0" (nines 4300) "") =
    Ok (1, 0, int_str_bound - 1)%N ∧
  bump_patch (numbered 1 0 (int_str_bound - 1)) = Err ValueError.
Proof. by vm_compute. Qed.

(** C4, amended.  On the text v<a>.<b>.<c> of three non-negative integers
    below 10^4300, which are the integers of at most 4300 digits,
    [bump_patch] gives v<a>.<b>.<c+1>, [bump_minor] gives v<a>.<b+1>.0 and
    [bump_major] gives v<a+1>.0.0, as long as the number that is
    incremented stays below 10^4300; the three cases named by the
    specification come out as "v1.0.10", "v2.10.0" and "v10.0.0". *)
Theorem bump_correct a b c :
  (a < int_str_bound)%N → (b < int_str_bound)%N → (c < int_str_bound)%N →
  ((c + 1 < int_str_bound)%N →
   bump_patch (numbered a b c) = Ok (numbered a b (c + 1))) ∧
  ((b + 1 < int_str_bound)%N →
   bump_minor (numbered a b c) = Ok (numbered a (b + 1) 0)) ∧
  ((a + 1 < int_str_bound)%N →
   bump_major (numbered a b c) = Ok (numbered (a + 1) 0 0)) ∧
  numbered 1 0 9 = "v1.0.9" ∧
  bump_patch "v1.0.9" = Ok "v1.0.10" ∧
  bump_minor "v2.9.3" = Ok "v2.10.0" ∧
  bump_major "v9.9.9" = Ok "v10.0.0".
Proof.
  intros Ha Hb Hc.
  rewrite bump_patch_numbered, bump_minor_numbered, bump_major_numbered
    by done.
  do 3 (split; [by intros ->%N.ltb_lt|]).
  by vm_compute.
Qed.

Lemma bump_correct_witness :
  bump_patch (numbered 1 0 9) = Ok (numbered 1 0 (9 + 1)) ∧
  bump_minor (numbered 2 9 3) = Ok (numbered 2 (9 + 1) 0) ∧
  bump_major (numbered 9 9 9) = Ok (numbered (9 + 1) 0 0).
Proof.
  split; [|split].
  - apply (bump_correct 1 0 9); by vm_compute.
  - apply (bump_correct 2 9 3); by vm_compute.
  - apply (bump_correct 9 9 9); by vm_compute.
Defined.

(** C5, refuted.  "1.0.0" does not match the version pattern, and each
    bump function returns it as it came instead of failing. *)
Lemma bump_invalid_returned_unchanged :
  validate_version "1.0.0" = false ∧
  test_version_pattern "1.0.0" = false ∧
  bump_patch "1.0.0" = Ok "1.0.0" ∧
  bump_minor "1.0.0" = Ok "1.0.0" ∧
  bump_major "1.0.0" = Ok "1.0.0".
Proof. by vm_compute. Qed.

(** C5, amended.  No bump function rejects a text for not matching the
    version pattern.  When no prefix of the text has the shape of a
    version, the text is returned unchanged.  Otherwise the text is a
    version followed by trailing characters, and the bump of that version
    is returned, unless one of its three numerals has more than 4300
    digits or the incremented number has: then the conversion between
    [str] and [int] raises [ValueError]. *)
Theorem bump_invalid_returns s :
  validate_version s = false →
  (¬ has_version_prefix s ∧
   bump_patch s = Ok s ∧ bump_minor s = Ok s ∧ bump_major s = Ok s)
  ∨
  (∃ g1 g2 g3 trailing,
     s = version_text g1 g2 g3 trailing ∧
     digit_run g1 = true ∧ digit_run g2 = true ∧ digit_run g3 = true ∧
     trailing ≠ "" ∧ starts_with_digit trailing = false ∧
     bump_patch s =
       (if convertible g1 g2 g3 (of_digits g3 + 1)
        then Ok (numbered (of_digits g1) (of_digits g2) (of_digits g3 + 1))
        else Err ValueError) ∧
     bump_minor s =
       (if convertible g1 g2 g3 (of_digits g2 + 1)
        then Ok (numbered (of_digits g1) (of_digits g2 + 1) 0)
        else Err ValueError) ∧
     bump_major s =
       (if convertible g1 g2 g3 (of_digits g1 + 1)
        then Ok (numbered (of_digits g1 + 1) 0 0)
        else Err ValueError)).
Proof.
  unfold validate_version. intros Hv.
  destruct (match_version s) as [m|] eqn:E.
  - right. exists (group1 m), (group2 m), (group3 m), (after m).
    pose proof (match_version_inv _ _ E) as (Hs & H1 & H2 & H3 & Hstop).
    rewrite (bump_patch_matched _ _ E), (bump_minor_matched _ _ E),
      (bump_major_matched _ _ E).
    repeat split; try done. by destruct (after m).
  - left. unfold bump_patch, bump_minor, bump_major. rewrite E.
    repeat split; try done.
    intros (g1 & g2 & g3 & rest & -> & H1 & H2 & H3).
    by rewrite match_version_text in E.
Qed.

Lemma bump_invalid_returns_witness :
  (¬ has_version_prefix "v1.0.0-beta" ∧
   bump_patch "v1.0.0-beta" = Ok "v1.0.0-beta" ∧
   bump_minor "v1.0.0-beta" = Ok "v1.0.0-beta" ∧
   bump_major "v1.0.0-beta" = Ok "v1.0.0-beta")
  ∨
  (∃ g1 g2 g3 trailing,
     "v1.0.0-beta" = version_text g1 g2 g3 trailing ∧
     digit_run g1 = true ∧ digit_run g2 = true ∧ digit_run g3 = true ∧
     trailing ≠ "" ∧ starts_with_digit trailing = false ∧
     bump_patch "v1.0.0-beta" =
       (if convertible g1 g2 g3 (of_digits g3 + 1)
        then Ok (numbered (of_digits g1) (of_digits g2) (of_digits g3 + 1))
        else Err ValueError) ∧
     bump_minor "v1.0.0-beta" =
       (if convertible g1 g2 g3 (of_digits g2 + 1)
        then Ok (numbered (of_digits g1) (of_digits g2 + 1) 0)
        else Err ValueError) ∧
     bump_major "v1.0.0-beta" =
       (if convertible g1 g2 g3 (of_digits g1 + 1)
        then Ok (numbered (of_digits g1 + 1) 0 0)
        else Err ValueError)).
Proof. exact (bump_invalid_returns "v1.0.0-beta" eq_refl). Defined.

(** C10, refuted.  The text "v1.0." followed by 4301 nines and "-beta"
    starts with a version, and no bump function bumps that version and
    drops the rest: each one raises [ValueError], as [int] refuses the
    4301 digits of the patch number. *)
Lemma bump_prefix_beyond_limit :
  let s := version_text "1" "0" (nines 4301) "-beta" in
  has_version_prefix s ∧
  bump_patch s = Err ValueError ∧
  bump_minor s = Err ValueError ∧
  bump_major s = Err ValueError.
Proof.
  split.
  - exists "1", "0", (nines 4301), "-beta". by vm_compute.
  - by vm_compute.
Qed.

(** C10, amended.  The pattern is matched at the start of the text and
    not anchored at its end.  On a text that starts with a version
    v<g1>.<g2>.<g3> whose numerals have 4300 digits at most, whatever
    follows, [bump_minor] and [bump_major] return the bump of that
    version; [bump_patch] does so too, a run of digits at the start of
    what follows being part of the patch number (it extends the matched
    prefix).  In each case the number that is incremented has to stay
    below 10^4300.  What follows the matched prefix is dropped; the text
    is not rejected. *)
Theorem bump_prefix_match g1 g2 g3 rest :
  digit_run g1 = true → digit_run g2 = true → digit_run g3 = true →
  let s := version_text g1 g2 g3 rest in
  let patch := g3 +:+ (span_digits rest).1 in
  within_limit g1 = true → within_limit g2 = true →
  within_limit patch = true →
  ((of_digits g2 + 1 < int_str_bound)%N →
   bump_minor s = Ok (numbered (of_digits g1) (of_digits g2 + 1) 0)) ∧
  ((of_digits g1 + 1 < int_str_bound)%N →
   bump_major s = Ok (numbered (of_digits g1 + 1) 0 0)) ∧
  ((of_digits patch + 1 < int_str_bound)%N →
   bump_patch s =
     Ok (numbered (of_digits g1) (of_digits g2) (of_digits patch + 1))) ∧
  (starts_with_digit rest = false →
   patch = g3 ∧
   bump_patch s = bump_patch (version_text g1 g2 g3 "") ∧
   bump_minor s = bump_minor (version_text g1 g2 g3 "") ∧
   bump_major s = bump_major (version_text g1 g2 g3 "")).
Proof.
  intros H1 H2 H3 s patch L1 L2 L3. unfold s, patch in *.
  pose proof (match_version_text g1 g2 g3 rest H1 H2 H3) as E.
  rewrite (bump_patch_matched _ _ E), (bump_minor_matched _ _ E),
    (bump_major_matched _ _ E).
  unfold convertible. cbn [group1 group2 group3].
  rewrite L1, L2, L3, !within_limit_to_digits.
  do 3 (split; [by intros ->%N.ltb_lt|]).
  intros Hstop.
  pose proof (match_version_text g1 g2 g3 "" H1 H2 H3) as E'.
  rewrite (bump_patch_matched _ _ E'), (bump_minor_matched _ _ E'),
    (bump_major_matched _ _ E').
  unfold convertible. cbn [group1 group2 group3].
  rewrite (span_digits_stop rest Hstop) in *. cbn [fst span_digits] in *.
  rewrite append_nil in *. by rewrite L1, L2, L3, !within_limit_to_digits.
Qed.

Lemma bump_prefix_match_witness :
  bump_minor "v1.0.0-beta" = Ok "v1.1.0" ∧
  bump_major "v1.0.0-beta" = Ok "v2.0.0" ∧
  bump_patch "v1.0.0-beta" = Ok "v1.0.1" ∧
  bump_patch "v1.0.0-beta" = bump_patch "v1.0.0" ∧
  bump_minor "v1.0.0-beta" = bump_minor "v1.0.0" ∧
  bump_major "v1.0.0-beta" = bump_major "v1.0.0".
Proof.
  pose proof (bump_prefix_match "1" "0" "0" "-beta" eq_refl eq_refl eq_refl
                eq_refl eq_refl eq_refl) as (Hminor & Hmajor & Hpatch & Hrest).
  split; [apply Hminor; by vm_compute|].
  split; [apply Hmajor; by vm_compute|].
  split; [apply Hpatch; by vm_compute|].
  apply Hrest. reflexivity.
Defined.

End BumpPolicy.

(* ================================================================== *)
(** * Facts about dictionaries *)

Module DictFacts.
Import Json.

Lemma dict_get_set_eq (d : dict) k v : dict_get (dict_set d k v) k = Some v.
Proof.
  induction d as [|[k' x] d IH]; simpl.
  - by rewrite decide_True.
  - destruct (decide (k' = k)) as [->|Hne]; simpl.
    + by rewrite decide_True.
    + by rewrite decide_False.
Qed.

Lemma dict_get_set_ne (d : dict) k v k' :
  k' ≠ k → dict_get (dict_set d k v) k' = dict_get d k'.
Proof.
  intros Hne. induction d as [|[k0 x] d IH]; simpl.
  - by rewrite decide_False.
  - destruct (decide (k0 = k)) as [->|Hk]; simpl.
    + by rewrite !decide_False.
    + by rewrite IH.
Qed.

(** Of two assignments to one key in a row, the second stands. *)
Lemma dict_set_set (d : dict) k v v' :
  dict_set (dict_set d k v) k v' = dict_set d k v'.
Proof.
  induction d as [|[k' x] d IH]; simpl.
  - by rewrite decide_True.
  - destruct (decide (k' = k)) as [->|Hne]; simpl.
    + by rewrite decide_True.
    + by rewrite decide_False, IH.
Qed.

Lemma dict_in_true (d : dict) k : dict_in k d = true ↔ is_Some (dict_get d k).
Proof.
  unfold dict_in. rewrite is_Some_alt. by destruct (dict_get d k).
Qed.

Lemma dict_in_false (d : dict) k : dict_in k d = false ↔ dict_get d k = None.
Proof. unfold dict_in. by destruct (dict_get d k). Qed.

Lemma dict_in_keys (d : dict) k : dict_in k d = true ↔ k ∈ dict_keys d.
Proof.
  unfold dict_in, dict_keys. induction d as [|[k' x] d IH]; simpl.
  - split; [done|]. by intros ?%elem_of_nil.
  - rewrite elem_of_cons. destruct (decide (k' = k)) as [->|Hne].
    + split; auto.
    + rewrite IH. split; [by right|]. by intros [?|?]; [subst|].
Qed.

(** An assignment to a key that is present leaves the keys and their
    order alone; otherwise the key is added last. *)
Lemma dict_keys_set (d : dict) k v :
  dict_keys (dict_set d k v) =
    if dict_in k d then dict_keys d else dict_keys d ++ [k].
Proof.
  unfold dict_in, dict_keys. induction d as [|[k' x] d IH]; simpl; [done|].
  destruct (decide (k' = k)) as [->|Hne]; simpl; [done|].
  change (list_fmap _ _ fst ?l) with (l.*1).
  rewrite IH. by destruct (dict_get d k).
Qed.

Lemma dict_in_set (d : dict) k v k' :
  dict_in k' (dict_set d k v) = bool_decide (k' = k) || dict_in k' d.
Proof.
  unfold dict_in. destruct (decide (k' = k)) as [->|Hne].
  - by rewrite dict_get_set_eq, bool_decide_true.
  - by rewrite dict_get_set_ne, bool_decide_false.
Qed.

End DictFacts.

(* ================================================================== *)
(** * Runs of the updater *)

Module RegistryFacts.
Import Json Py Registry DictFacts.

Section OneRun.
Variable w : world.
Variables model_name new_version : string.

(** No file at the path of the registry. *)
Lemma update_run_missing :
  fs w !! registry_path = None →
  update_model_version model_name new_version w =
    (SystemExit 1,
     World (fs w) (seen w) (clock w)
       (stdout w ++ [RegistryNotFound registry_path])).
Proof. intros Hfile. run_update. by rewrite Hfile. Qed.

(** A file that is not JSON. *)
Lemma update_run_corrupt c :
  fs w !! registry_path = Some c → c = Blank ∨ c = Malformed →
  update_model_version model_name new_version w = (Raise JSONDecodeError, w).
Proof. intros Hfile [-> | ->]; run_update; by repeat (rewrite Hfile; simpl). Qed.

Variable d : dict.
Hypothesis file : fs w !! registry_path = Some (Document (JObj d)).

(** The name is not a key of the document. *)
Lemma update_run_unknown :
  dict_in model_name d = false →
  update_model_version model_name new_version w =
    (SystemExit 1,
     World (fs w) (seen w) (clock w)
       (stdout w ++ [ModelNotFound model_name; AvailableModels (dict_keys d)])).
Proof.
  intros Hin. run_update. repeat (rewrite file; simpl). rewrite Hin. simpl.
  by rewrite <- app_assoc.
Qed.

(** The name is a key of the document. *)
Lemma update_run_known :
  dict_in model_name d = true →
  update_model_version model_name new_version w =
    (Return tt,
     World
       (<[registry_path :=
            Document (JObj (updated d model_name new_version (clock w)))]> (fs w))
       (seen w ++
          [<[registry_path := Blank]> (fs w);
           <[registry_path :=
               Document (JObj (updated d model_name new_version (clock w)))]> (fs w)])
       (clock w)
       (stdout w ++
          [Updated model_name (dict_get_default d model_name (JStr "unknown"))
             new_version;
           RegistrySaved registry_path])).
Proof.
  intros Hin. run_update. repeat (rewrite file; simpl). rewrite Hin. simpl.
  rewrite insert_insert_eq, <- !app_assoc. done.
Qed.
End OneRun.

End RegistryFacts.

(* ================================================================== *)
(** * The entries of a document *)

Module EntriesFacts.
Import Json Py Registry DictFacts.

Lemma reserved_last_updated : reserved "last_updated" = true.
Proof. reflexivity. Qed.

Lemma reserved_metadata : reserved "metadata" = true.
Proof. reflexivity. Qed.

Lemma reserved_false k :
  reserved k = false ↔ k ≠ "last_updated" ∧ k ≠ "metadata".
Proof.
  unfold reserved. rewrite orb_false_iff, !bool_decide_eq_false. done.
Qed.

Lemma entries_cons k x (d : dict) :
  entries ((k, x) :: d) =
    if reserved k then entries d else (k, x) :: entries d.
Proof.
  unfold entries. destruct (reserved k) eqn:Hk.
  - rewrite filter_cons_False; [done|]. simpl. by rewrite Hk.
  - by rewrite filter_cons_True.
Qed.

Lemma dict_get_entries (d : dict) k :
  dict_get (entries d) k = if reserved k then None else dict_get d k.
Proof.
  induction d as [|[k' x] d IH]; [by destruct (reserved k)|].
  rewrite entries_cons. simpl.
  destruct (decide (k' = k)) as [->|Hne].
  - destruct (reserved k); [done|]. simpl. by rewrite decide_True.
  - destruct (reserved k'); [done|]. simpl. by rewrite decide_False.
Qed.

(** A key of the entries: a key of the document that is not reserved. *)
Lemma dict_in_entries (d : dict) k :
  dict_in k (entries d) = true ↔ reserved k = false ∧ dict_in k d = true.
Proof.
  unfold dict_in. rewrite dict_get_entries.
  destruct (reserved k); [|by intuition]. split; [done|]. by intros [? _].
Qed.

(** Writing a reserved key does not touch the entries. *)
Lemma entries_set_reserved (d : dict) k v :
  reserved k = true → entries (dict_set d k v) = entries d.
Proof.
  intros Hk. induction d as [|[k' x] d IH]; simpl.
  - by rewrite entries_cons, Hk.
  - destruct (decide (k' = k)) as [->|Hne].
    + by rewrite !entries_cons, Hk.
    + by rewrite !entries_cons, IH.
Qed.

(** Writing a model key is the same write on the entries. *)
Lemma entries_set_model (d : dict) k v :
  reserved k = false → entries (dict_set d k v) = dict_set (entries d) k v.
Proof.
  intros Hk. induction d as [|[k' x] d IH]; simpl.
  - by rewrite entries_cons, Hk.
  - destruct (decide (k' = k)) as [->|Hne].
    + rewrite !entries_cons, Hk. simpl. by rewrite decide_True.
    + rewrite !entries_cons, IH. destruct (reserved k'); [done|].
      simpl. by rewrite decide_False.
Qed.

End EntriesFacts.

(* ================================================================== *)
(** * The update operation *)

Module UpdateClaims.
Import Json Py Registry DictFacts EntriesFacts RegistryFacts Samples.

(** C1.  A successful update of a model identifier [m] (a key other than
    the two reserved ones) to a version [v] writes back a document in
    which [m] is [v] and [last_updated] is the current UTC time; every
    other top-level key has the value it had: the other entries, in their
    order, and the whole of [metadata]. *)
Theorem update_frame files now (d : dict) m v w' :
  files !! registry_path = Some (Document (JObj d)) →
  reserved m = false →
  update_model_version m v (start files now) = (Return tt, w') →
  let d' := updated d m v now in
  fs w' = <[registry_path := Document (JObj d')]> files ∧
  dict_get d' m = Some (JStr v) ∧
  dict_get d' "last_updated" = Some (JStr (now +:+ "Z")) ∧
  (∀ k, k ≠ m → k ≠ "last_updated" → dict_get d' k = dict_get d k) ∧
  metadata d' = metadata d ∧
  entries d' = dict_set (entries d) m (JStr v) ∧
  dict_keys d' =
    (if dict_in "last_updated" d then dict_keys d
     else dict_keys d ++ ["last_updated"]).
Proof.
  intros Hfile Hm Hrun d'.
  apply reserved_false in Hm as Hm'. destruct Hm' as [Hlu Hmeta].
  destruct (dict_in m d) eqn:Hin.
  - rewrite (update_run_known _ _ _ d) in Hrun by done.
    injection Hrun as <-. simpl. unfold d', updated, metadata.
    split; [done|]. split.
    { by rewrite dict_get_set_ne, dict_get_set_eq. }
    split; [by rewrite dict_get_set_eq|]. split.
    { intros k Hk1 Hk2. by rewrite !dict_get_set_ne. }
    split.
    { by rewrite !dict_get_set_ne. }
    split; [by rewrite entries_set_reserved, entries_set_model|].
    rewrite dict_keys_set, dict_in_set, dict_keys_set, Hin.
    by rewrite bool_decide_false.
  - by rewrite (update_run_unknown _ _ _ d) in Hrun.
Qed.

Lemma update_frame_witness :
  let w' := (update_model_version "embedding_model" "v1.1.0"
               (start sample_files sample_now)).2 in
  let d' := updated sample_registry "embedding_model" "v1.1.0" sample_now in
  fs w' = <[registry_path := Document (JObj d')]> sample_files ∧
  dict_get d' "embedding_model" = Some (JStr "v1.1.0") ∧
  dict_get d' "last_updated" = Some (JStr (sample_now +:+ "Z")) ∧
  (∀ k, k ≠ "embedding_model" → k ≠ "last_updated" →
        dict_get d' k = dict_get sample_registry k) ∧
  metadata d' = metadata sample_registry ∧
  entries d' =
    dict_set (entries sample_registry) "embedding_model" (JStr "v1.1.0") ∧
  dict_keys d' =
    (if dict_in "last_updated" sample_registry then dict_keys sample_registry
     else dict_keys sample_registry ++ ["last_updated"]).
Proof.
  apply (update_frame sample_files sample_now sample_registry
           "embedding_model" "v1.1.0"); reflexivity.
Defined.

(** C2, refuted.  [metadata] is not a key of the entries of the sample
    registry, and an update that names it is carried out: it ends
    normally and the metadata of the persisted document is the version
    string. *)
Lemma update_reserved_key_not_rejected :
  dict_in "metadata" (entries sample_registry) = false ∧
  let r := update_model_version "metadata" "v1.0.0"
             (start sample_files sample_now) in
  r.1 = Return tt ∧
  fs r.2 !! registry_path =
    Some (Document (JObj
      [("embedding_model", JStr "v1.0.0");
       ("emergency_classifier", JStr "v1.0.0");
       ("translation_model", JStr "v1.0.0");
       ("last_updated", JStr "2024-06-01T12:00:00Z");
       ("metadata", JStr "v1.0.0")])).
Proof. by vm_compute. Qed.

(** C2, amended.  When the name is not a top-level key of the document,
    the update stops with [sys.exit(1)] after printing a line that names
    the model and the list of the keys; nothing is written: the files are
    as they were, no entry for the name comes into being. *)
Theorem update_unknown_rejected files now (d : dict) m v :
  files !! registry_path = Some (Document (JObj d)) →
  dict_in m d = false →
  let r := update_model_version m v (start files now) in
  r.1 = SystemExit 1 ∧
  exit_status r.1 = 1%Z ∧
  stdout r.2 = [ModelNotFound m; AvailableModels (dict_keys d)] ∧
  fs r.2 = files ∧
  seen r.2 = [] ∧
  (∀ d' : dict, fs r.2 !! registry_path = Some (Document (JObj d')) →
                dict_in m d' = false).
Proof.
  intros Hfile Hin r. unfold r.
  rewrite (update_run_unknown _ _ _ d) by done. simpl.
  do 5 (split; [done|]).
  intros d' Hd'. rewrite Hfile in Hd'. by injection Hd' as <-.
Qed.

Lemma update_unknown_rejected_witness :
  let r := update_model_version "nonexistent_model" "v1.0.0"
             (start sample_files sample_now) in
  r.1 = SystemExit 1 ∧
  exit_status r.1 = 1%Z ∧
  stdout r.2 =
    [ModelNotFound "nonexistent_model";
     AvailableModels (dict_keys sample_registry)] ∧
  fs r.2 = sample_files ∧
  seen r.2 = [] ∧
  (∀ d' : dict, fs r.2 !! registry_path = Some (Document (JObj d')) →
                dict_in "nonexistent_model" d' = false).
Proof.
  apply (update_unknown_rejected sample_files sample_now sample_registry
           "nonexistent_model" "v1.0.0"); reflexivity.
Defined.

(** C3, refuted.  "1.0.0" does not match the version pattern,
    [embedding_model] is an entry of the sample registry, and the update
    ends normally with "1.0.0" persisted as the value of the entry. *)
Lemma update_invalid_version_written :
  Version.validate_version "1.0.0" = false ∧
  Version.test_version_pattern "1.0.0" = false ∧
  dict_in "embedding_model" (entries sample_registry) = true ∧
  let r := update_model_version "embedding_model" "1.0.0"
             (start sample_files sample_now) in
  r.1 = Return tt ∧
  fs r.2 !! registry_path =
    Some (Document (JObj
      [("embedding_model", JStr "1.0.0");
       ("emergency_classifier", JStr "v1.0.0");
       ("translation_model", JStr "v1.0.0");
       ("last_updated", JStr "2024-06-01T12:00:00Z");
       ("metadata",
        JObj [("embedding_model",
               JObj [("dimension", JInt 768); ("base", JStr "test-model")])])])).
Proof. by vm_compute. Qed.

(** C3, amended.  The update does not check the version: for an entry [m]
    of the document and a string [s] that does not match the version
    pattern, it ends normally and persists the document with [s] as the
    value of [m]. *)
Theorem update_writes_any_version files now (d : dict) m s :
  files !! registry_path = Some (Document (JObj d)) →
  dict_in m (entries d) = true →
  Version.validate_version s = false →
  let r := update_model_version m s (start files now) in
  r.1 = Return tt ∧
  fs r.2 = <[registry_path := Document (JObj (updated d m s now))]> files ∧
  dict_get (updated d m s now) m = Some (JStr s).
Proof.
  intros Hfile [Hm Hin]%dict_in_entries _ r. unfold r.
  rewrite (update_run_known _ _ _ d) by done. simpl.
  do 2 (split; [done|]).
  apply reserved_false in Hm as [Hlu _].
  unfold updated. by rewrite dict_get_set_ne, dict_get_set_eq.
Qed.

Lemma update_writes_any_version_witness :
  let r := update_model_version "embedding_model" "1.0.0"
             (start sample_files sample_now) in
  r.1 = Return tt ∧
  fs r.2 =
    <[registry_path :=
        Document (JObj (updated sample_registry "embedding_model" "1.0.0"
                          sample_now))]> sample_files ∧
  dict_get (updated sample_registry "embedding_model" "1.0.0" sample_now)
    "embedding_model" = Some (JStr "1.0.0").
Proof.
  apply (update_writes_any_version sample_files sample_now sample_registry
           "embedding_model" "1.0.0"); reflexivity.
Defined.

(** C9, refuted.  The sample registry has the key [last_updated]; an
    update that names it with the version "v9.9.9" is accepted, and the
    value of [last_updated] in the persisted document is the time of the
    update, not the version string. *)
Lemma update_last_updated_keeps_time :
  dict_in "last_updated" sample_registry = true ∧
  let r := update_model_version "last_updated" "v9.9.9"
             (start sample_files sample_now) in
  r.1 = Return tt ∧
  ∃ d' : dict,
    fs r.2 !! registry_path = Some (Document (JObj d')) ∧
    dict_get d' "last_updated" = Some (JStr "2024-06-01T12:00:00Z") ∧
    dict_get d' "last_updated" ≠ Some (JStr "v9.9.9").
Proof.
  split; [done|]. split; [done|].
  eexists. split; [by vm_compute|]. by vm_compute.
Qed.

(** C9, amended.  The check of the model name looks at all the top-level
    keys of the document: an update that names [last_updated] or
    [metadata], when the document has that key, is accepted, reported as
    done and persisted, the entries staying as they were.  Naming
    [metadata] replaces the whole metadata by the version string.  Naming
    [last_updated] leaves no trace of the version string: the time of the
    update is assigned to the same key right after. *)
Theorem update_reserved_key files now (d : dict) k v :
  files !! registry_path = Some (Document (JObj d)) →
  reserved k = true →
  dict_in k d = true →
  let r := update_model_version k v (start files now) in
  let d' := updated d k v now in
  r.1 = Return tt ∧
  stdout r.2 =
    [Updated k (dict_get_default d k (JStr "unknown")) v;
     RegistrySaved registry_path] ∧
  fs r.2 = <[registry_path := Document (JObj d')]> files ∧
  entries d' = entries d ∧
  (k = "metadata" → metadata d' = Some (JStr v)) ∧
  (k = "last_updated" →
   dict_get d' "last_updated" = Some (JStr (now +:+ "Z")) ∧
   d' = dict_set d "last_updated" (JStr (now +:+ "Z"))).
Proof.
  intros Hfile Hk Hin r d'. unfold r, d', updated, metadata.
  rewrite (update_run_known _ _ _ d) by done. simpl.
  do 3 (split; [done|]). split; [|split].
  - by rewrite !entries_set_reserved.
  - intros ->. by rewrite dict_get_set_ne, dict_get_set_eq.
  - intros ->. by rewrite dict_get_set_eq, dict_set_set.
Qed.

Lemma update_reserved_key_witness :
  let r := update_model_version "metadata" "v2.0.0"
             (start sample_files sample_now) in
  let d' := updated sample_registry "metadata" "v2.0.0" sample_now in
  r.1 = Return tt ∧
  stdout r.2 =
    [Updated "metadata"
       (dict_get_default sample_registry "metadata" (JStr "unknown")) "v2.0.0";
     RegistrySaved registry_path] ∧
  fs r.2 = <[registry_path := Document (JObj d')]> sample_files ∧
  entries d' = entries sample_registry ∧
  ("metadata" = "metadata" → metadata d' = Some (JStr "v2.0.0")) ∧
  ("metadata" = "last_updated" →
   dict_get d' "last_updated" = Some (JStr (sample_now +:+ "Z")) ∧
   d' = dict_set sample_registry "last_updated" (JStr (sample_now +:+ "Z"))).
Proof.
  apply (update_reserved_key sample_files sample_now sample_registry
           "metadata" "v2.0.0"); reflexivity.
Defined.

(** C7, refuted.  While the sample registry is updated, a reader can find
    the registry file in a state that is neither the old document nor the
    new one: the file as [open(path, 'w')] has emptied it. *)
Lemma update_not_atomic :
  let w0 := start sample_files sample_now in
  let r := update_model_version "embedding_model" "v1.1.0" w0 in
  r.1 = Return tt ∧
  ∃ st,
    st ∈ observable w0 r.2 ∧
    st !! registry_path = Some Blank ∧
    st !! registry_path ≠ fs w0 !! registry_path ∧
    st !! registry_path ≠ fs r.2 !! registry_path.
Proof.
  split; [done|].
  exists (<[registry_path := Blank]> sample_files).
  split; [|by vm_compute].
  unfold observable. apply elem_of_cons. right.
  apply elem_of_cons. by left.
Qed.

(** C7, amended.  An update that goes through writes the registry file in
    place: the file is opened for writing, which empties it, and the new
    document is written into it.  The files start from the old document
    and end with the new one; in between a reader can find the registry
    file emptied, which is neither; at no moment is another path created,
    written or renamed. *)
Theorem update_in_place files now (d : dict) m v :
  files !! registry_path = Some (Document (JObj d)) →
  dict_in m d = true →
  let w0 := start files now in
  let r := update_model_version m v w0 in
  let new := Document (JObj (updated d m v now)) in
  r.1 = Return tt ∧
  head (observable w0 r.2) = Some files ∧
  last (observable w0 r.2) = Some (<[registry_path := new]> files) ∧
  fs r.2 = <[registry_path := new]> files ∧
  <[registry_path := Blank]> files ∈ observable w0 r.2 ∧
  ∀ st path, st ∈ observable w0 r.2 → path ≠ registry_path →
             st !! path = files !! path.
Proof.
  intros Hfile Hin w0 r new. unfold r, w0, new, observable.
  rewrite (update_run_known _ _ _ d) by done. simpl.
  do 4 (split; [done|]).
  split; [apply elem_of_cons; right; apply elem_of_cons; by left|].
  intros st path Hst Hpath.
  rewrite !elem_of_cons in Hst.
  destruct Hst as [-> | [-> | [-> | Hst]]].
  - done.
  - by rewrite lookup_insert_ne.
  - by rewrite lookup_insert_ne.
  - by apply elem_of_nil in Hst.
Qed.

Lemma update_in_place_witness :
  let w0 := start sample_files sample_now in
  let r := update_model_version "embedding_model" "v1.1.0" w0 in
  let new :=
    Document (JObj (updated sample_registry "embedding_model" "v1.1.0"
                      sample_now)) in
  r.1 = Return tt ∧
  head (observable w0 r.2) = Some sample_files ∧
  last (observable w0 r.2) = Some (<[registry_path := new]> sample_files) ∧
  fs r.2 = <[registry_path := new]> sample_files ∧
  <[registry_path := Blank]> sample_files ∈ observable w0 r.2 ∧
  ∀ st path, st ∈ observable w0 r.2 → path ≠ registry_path →
             st !! path = sample_files !! path.
Proof.
  apply (update_in_place sample_files sample_now sample_registry
           "embedding_model" "v1.1.0"); reflexivity.
Defined.

End UpdateClaims.

(* ================================================================== *)
(** * The command line *)

Module CliClaims.
Import Json Py Registry DictFacts RegistryFacts Samples.

Lemma main_run prog m v files now :
  main [prog; m; v] (start files now) =
    update_model_version m (prefixed v) (World files [] now (warning v)).
Proof.
  unfold main, prefixed, warning, start.
  destruct (PyStr.startswith "v" v); reflexivity.
Qed.

(** C8.  Run as [<prog> <model_name> <new_version>], the updater
    - ends with status 1 and a line about the registry when there is no
      registry file;
    - ends with status 1 and a line that names the model when the name
      is not a key of the document;
    - prints a warning when the version does not start with 'v', puts
      'v' in front of it and goes on with the update;
    - ends with status 0 after an update that went through, having
      printed what it updated and where it saved. *)
Theorem cli_contract prog m v files now :
  let r := main [prog; m; v] (start files now) in
  (files !! registry_path = None →
     exit_status r.1 = 1%Z ∧
     stdout r.2 = warning v ++ [RegistryNotFound registry_path] ∧
     fs r.2 = files)
  ∧
  (∀ d : dict,
     files !! registry_path = Some (Document (JObj d)) →
     dict_in m d = false →
     exit_status r.1 = 1%Z ∧
     stdout r.2 =
       warning v ++ [ModelNotFound m; AvailableModels (dict_keys d)] ∧
     fs r.2 = files)
  ∧
  (PyStr.startswith "v" v = false →
     r = update_model_version m ("v" +:+ v)
           (World files [] now [VersionShouldStartWithV]))
  ∧
  (∀ d : dict,
     files !! registry_path = Some (Document (JObj d)) →
     dict_in m d = true →
     exit_status r.1 = 0%Z ∧
     stdout r.2 =
       warning v ++
       [Updated m (dict_get_default d m (JStr "unknown")) (prefixed v);
        RegistrySaved registry_path] ∧
     fs r.2 =
       <[registry_path := Document (JObj (updated d m (prefixed v) now))]> files ∧
     dict_get (updated d m (prefixed v) now) m =
       (if decide (m = "last_updated") then Some (JStr (now +:+ "Z"))
        else Some (JStr (prefixed v)))).
Proof.
  intros r. unfold r. rewrite main_run.
  split; [|split; [|split]].
  - intros Hfile. by rewrite update_run_missing.
  - intros d Hfile Hin. by rewrite (update_run_unknown _ _ _ d).
  - intros Hv. unfold prefixed, warning. by rewrite Hv.
  - intros d Hfile Hin. rewrite (update_run_known _ _ _ d) by done. simpl.
    do 3 (split; [done|]). unfold updated.
    destruct (decide (m = "last_updated")) as [->|Hne].
    + by rewrite dict_get_set_eq.
    + by rewrite dict_get_set_ne, dict_get_set_eq.
Qed.

Lemma cli_contract_witness :
  (* no registry file *)
  exit_status
    (main ["update_registry.py"; "embedding_model"; "v1.1.0"]
       (start ∅ sample_now)).1 = 1%Z
  ∧
  (* a name that is not in the registry *)
  exit_status
    (main ["update_registry.py"; "nonexistent_model"; "v1.1.0"]
       (start sample_files sample_now)).1 = 1%Z
  ∧
  (* a version without its 'v' *)
  main ["update_registry.py"; "embedding_model"; "1.1.0"]
    (start sample_files sample_now) =
  update_model_version "embedding_model" "v1.1.0"
    (World sample_files [] sample_now [VersionShouldStartWithV])
  ∧
  (* an update that goes through *)
  exit_status
    (main ["update_registry.py"; "embedding_model"; "v1.1.0"]
       (start sample_files sample_now)).1 = 0%Z.
Proof.
  split; [|split; [|split]].
  - apply (cli_contract "update_registry.py" "embedding_model" "v1.1.0"
             ∅ sample_now). reflexivity.
  - apply (proj1 (proj2 (cli_contract "update_registry.py"
             "nonexistent_model" "v1.1.0" sample_files sample_now))
             sample_registry); reflexivity.
  - apply (proj1 (proj2 (proj2 (cli_contract "update_registry.py"
             "embedding_model" "1.1.0" sample_files sample_now)))).
    reflexivity.
  - apply (proj2 (proj2 (proj2 (cli_contract "update_registry.py"
             "embedding_model" "v1.1.0" sample_files sample_now)))
             sample_registry); reflexivity.
Defined.

End CliClaims.

(* ================================================================== *)
(** * The start-up read of the serving process *)

Module StartupClaims.
Import Json Py Service DictFacts Samples.

Lemma load_models_missing files ml :
  files !! registry_path = None →
  load_models (start files ml) =
    match ml with
    | None =>
        (Return tt,
         World files ml
           (default_versions ++ [("last_updated", JStr "unknown")])
           (log_without_registry ++
              [(INFO, EmptyLine); (INFO, Rule); (INFO, AllModelsLoaded);
               (INFO, Rule)]))
    | Some e =>
        (Raise e,
         World files ml
           (default_versions ++ [("last_updated", JStr "unknown")])
           (log_without_registry ++ [(ERROR, ErrorLoadingModels e)]))
    end.
Proof.
  intros Hfile. run_startup. repeat (rewrite Hfile; simpl). by destruct ml.
Qed.

Lemma load_models_corrupt files ml c :
  files !! registry_path = Some c → c = Blank ∨ c = Malformed →
  load_models (start files ml) =
    (Raise JSONDecodeError,
     World files ml []
       [(INFO, Rule); (INFO, Starting); (INFO, Rule);
        (ERROR, ErrorLoadingModels JSONDecodeError)]).
Proof.
  intros Hfile [-> | ->]; run_startup; by repeat (rewrite Hfile; simpl).
Qed.




End StartupClaims.

(* ================================================================== *)
(** * Laws of the bump functions and of the pattern of the structure test *)

Module BumpLaws.
Import Py PyPure PyStr PyInt Version VersionFacts BumpPolicy.

Lemma test_version_pattern_numbered a b c :
  test_version_pattern (numbered a b c) = true.
Proof. unfold test_version_pattern. by rewrite match_version_numbered. Qed.

(** How a bump function can end: it returns the text it was given, which
    does not start with a version; or the text starts with a version, and
    the function returns the text of three numbers or raises
    [ValueError]. *)
Lemma bump_cases s :
  match_version s = None ∧
    bump_patch s = Ok s ∧ bump_minor s = Ok s ∧ bump_major s = Ok s
  ∨
  has_version_prefix s ∧
    (bump_patch s = Err ValueError ∨
     ∃ a b c, bump_patch s = Ok (numbered a b c)) ∧
    (bump_minor s = Err ValueError ∨
     ∃ a b c, bump_minor s = Ok (numbered a b c)) ∧
    (bump_major s = Err ValueError ∨
     ∃ a b c, bump_major s = Ok (numbered a b c)).
Proof.
  destruct (match_version s) as [m|] eqn:E.
  - right.
    rewrite (bump_patch_matched _ _ E), (bump_minor_matched _ _ E),
      (bump_major_matched _ _ E).
    split.
    { apply match_version_inv in E as (? & ? & ? & ? & _).
      by exists (group1 m), (group2 m), (group3 m), (after m). }
    repeat split.
    + destruct (convertible _ _ _ _); [right|by left]. by eexists _, _, _.
    + destruct (convertible _ _ _ _); [right|by left]. by eexists _, _, _.
    + destruct (convertible _ _ _ _); [right|by left]. by eexists _, _, _.
  - left. unfold bump_patch, bump_minor, bump_major. by rewrite E.
Qed.

(** X1.  Whatever the text, a bump function that returns has returned the
    text unchanged or a text that passes the pattern of
    [test_registry_structure]: "v", a number, a dot, a number, a dot, a
    number, and nothing else.  The only exception it raises is
    [ValueError], and only on a text that starts with a version. *)
Theorem bump_returns_input_or_version s :
  match bump_patch s with
  | Ok t => t = s ∨ test_version_pattern t = true
  | Err e => e = ValueError ∧ has_version_prefix s
  end ∧
  match bump_minor s with
  | Ok t => t = s ∨ test_version_pattern t = true
  | Err e => e = ValueError ∧ has_version_prefix s
  end ∧
  match bump_major s with
  | Ok t => t = s ∨ test_version_pattern t = true
  | Err e => e = ValueError ∧ has_version_prefix s
  end.
Proof.
  destruct (bump_cases s) as [(_ & -> & -> & ->) | (Hs & Hp & Hm & HM)].
  - by repeat split; left.
  - destruct Hp as [-> | (a & b & c & ->)],
      Hm as [-> | (a' & b' & c' & ->)],
      HM as [-> | (a'' & b'' & c'' & ->)];
      repeat split; try done; right; apply test_version_pattern_numbered.
Qed.

(** The text of three numbers that a bump function has returned are
    numbers that [int] reads back. *)
Lemma bump_minor_returned s m t :
  match_version s = Some m → bump_minor s = Ok t →
  convertible (group1 m) (group2 m) (group3 m) (of_digits (group2 m) + 1) = true ∧
  t = numbered (of_digits (group1 m)) (of_digits (group2 m) + 1) 0.
Proof.
  intros E. rewrite (bump_minor_matched _ _ E).
  destruct (convertible _ _ _ _); [|done]. by intros [= <-].
Qed.

Lemma bump_patch_returned s m t :
  match_version s = Some m → bump_patch s = Ok t →
  convertible (group1 m) (group2 m) (group3 m) (of_digits (group3 m) + 1) = true ∧
  t = numbered (of_digits (group1 m)) (of_digits (group2 m))
        (of_digits (group3 m) + 1).
Proof.
  intros E. rewrite (bump_patch_matched _ _ E).
  destruct (convertible _ _ _ _); [|done]. by intros [= <-].
Qed.

Lemma convertible_inv s m n :
  match_version s = Some m →
  convertible (group1 m) (group2 m) (group3 m) n = true →
  within_limit (group1 m) && within_limit (group2 m) &&
    within_limit (group3 m) = true ∧
  (of_digits (group1 m) < int_str_bound)%N ∧
  (of_digits (group2 m) < int_str_bound)%N ∧
  (of_digits (group3 m) < int_str_bound)%N ∧
  (n < int_str_bound)%N.
Proof.
  intros E [L Hn]%andb_true_iff. rewrite within_limit_to_digits in Hn.
  destruct (groups_bound _ _ E L) as (B1 & B2 & B3).
  by rewrite <- !N.ltb_lt.
Qed.

(** X2.  A bump of a higher part makes an earlier bump of a lower part
    invisible, when that earlier bump has returned: a major bump of what a
    minor or a patch bump has returned is the major bump alone, and a
    minor bump of what a patch bump has returned is the minor bump alone,
    be it a text or a [ValueError].  This holds for every text, matching
    or not. *)
Theorem bump_absorbs_lower s :
  (∀ t, bump_minor s = Ok t → bump_major t = bump_major s) ∧
  (∀ t, bump_patch s = Ok t →
        bump_major t = bump_major s ∧ bump_minor t = bump_minor s).
Proof.
  destruct (match_version s) as [m|] eqn:E.
  - split.
    + intros t Ht.
      destruct (bump_minor_returned _ _ _ E Ht) as (Hc & ->).
      destruct (convertible_inv _ _ _ E Hc) as (L & B1 & B2 & B3 & Bn).
      rewrite bump_major_numbered by (done || by vm_compute).
      rewrite (bump_major_matched _ _ E). unfold convertible.
      by rewrite L, within_limit_to_digits.
    + intros t Ht.
      destruct (bump_patch_returned _ _ _ E Ht) as (Hc & ->).
      destruct (convertible_inv _ _ _ E Hc) as (L & B1 & B2 & B3 & Bn).
      rewrite bump_major_numbered, bump_minor_numbered by done.
      rewrite (bump_major_matched _ _ E), (bump_minor_matched _ _ E).
      unfold convertible. by rewrite L, !within_limit_to_digits.
  - unfold bump_patch, bump_minor, bump_major. rewrite E.
    split; [by intros t [= <-]; rewrite E|].
    intros t [= <-]. by rewrite E.
Qed.

Lemma bump_absorbs_lower_witness :
  bump_major "v1.10.0" = bump_major "v1.9.3" ∧
  bump_major "v1.9.4" = bump_major "v1.9.3" ∧
  bump_minor "v1.9.4" = bump_minor "v1.9.3".
Proof.
  split.
  - apply (proj1 (bump_absorbs_lower "v1.9.3") "v1.10.0"). reflexivity.
  - apply (proj2 (bump_absorbs_lower "v1.9.3") "v1.9.4"). reflexivity.
Defined.

(** X3.  [n] patch bumps in a row add [n] to the patch number and leave
    the major and the minor number alone, as long as the patch number
    stays below 10^4300; the bump that would reach 10^4300 raises
    [ValueError], and so does the row. *)
Theorem bump_patch_iterated (n : nat) a b c :
  (a < int_str_bound)%N → (b < int_str_bound)%N → (c < int_str_bound)%N →
  ((c + N.of_nat n < int_str_bound)%N →
   bump_patch_times n (numbered a b c) = Ok (numbered a b (c + N.of_nat n))) ∧
  ((int_str_bound ≤ c + N.of_nat n)%N →
   bump_patch_times n (numbered a b c) = Err ValueError).
Proof.
  intros Ha Hb. revert c.
  induction n as [|n IH]; intros c Hc.
  - cbn [bump_patch_times]. split; [|lia]. intros _. by rewrite N.add_0_r.
  - cbn [bump_patch_times]. rewrite bump_patch_numbered by done.
    destruct (N.ltb_spec (c + 1) int_str_bound) as [Hlt|Hge].
    + cbn [mbind result_bind].
      destruct (IH (c + 1)%N Hlt) as [IHok IHerr].
      replace (c + N.of_nat (S n))%N with (c + 1 + N.of_nat n)%N by lia.
      done.
    + split; [lia|done].
Qed.

Lemma bump_patch_iterated_witness :
  bump_patch_times 3 (numbered 1 0 8) = Ok (numbered 1 0 (8 + N.of_nat 3)).
Proof.
  apply (bump_patch_iterated 3 1 0 8); by vm_compute.
Defined.

(** X4.  The pattern of [test_registry_structure] ends in [$]: it accepts
    exactly the versions and the versions followed by one newline. *)
Theorem test_version_pattern_accepts s :
  test_version_pattern s = true ↔
  ∃ g1 g2 g3,
    digit_run g1 = true ∧ digit_run g2 = true ∧ digit_run g3 = true ∧
    (s = version_text g1 g2 g3 "" ∨
     s = version_text g1 g2 g3 (String "010" "")).
Proof.
  unfold test_version_pattern. split.
  - destruct (match_version s) as [m|] eqn:E; [|done].
    apply match_version_inv in E as (Hs & H1 & H2 & H3 & _).
    intros Hafter. exists (group1 m), (group2 m), (group3 m).
    do 3 (split; [done|]).
    destruct (after m) as [|c [|c' rest]]; [by left| |done].
    right. by apply Ascii.eqb_eq in Hafter as ->.
  - intros (g1 & g2 & g3 & H1 & H2 & H3 & [-> | ->]);
      by rewrite match_version_text.
Qed.

Lemma test_version_pattern_accepts_witness :
  test_version_pattern (version_text "1" "0" "0" (String "010" "")) = true.
Proof.
  apply (proj2 (test_version_pattern_accepts
                  (version_text "1" "0" "0" (String "010" "")))).
  exists "1", "0", "0". repeat split; try reflexivity. by right.
Defined.

End BumpLaws.

(* ================================================================== *)
(** * More about assignments to a dictionary *)

Module DictLaws.
Import Json DictFacts.

(** Assignments to two keys can be swapped when the first key is already
    there: it keeps its place, and a new second key goes last either way. *)
Lemma dict_set_comm (d : dict) k1 v1 k2 v2 :
  k1 ≠ k2 → dict_in k1 d = true →
  dict_set (dict_set d k1 v1) k2 v2 = dict_set (dict_set d k2 v2) k1 v1.
Proof.
  intros Hne. unfold dict_in.
  induction d as [|[k x] d IH]; simpl; [done|].
  intros Hin.
  repeat (case_decide; simplify_eq/=; try done).
  by rewrite IH.
Qed.

Lemma dict_in_set_same (d : dict) k v : dict_in k (dict_set d k v) = true.
Proof. by rewrite dict_in_set, bool_decide_true. Qed.

End DictLaws.

(* ================================================================== *)
(** * Every run of the updater *)

Module UpdateLaws.
Import Json Py Registry DictFacts DictLaws RegistryFacts Samples Views.

(** A document that is JSON but not a dictionary: the run ends in a
    [TypeError] or an [AttributeError] and leaves the files alone. *)
Lemma update_run_not_object w m v j :
  fs w !! registry_path = Some (Document j) → is_object j = false →
  ∃ e out,
    (e = TypeError ∨ e = AttributeError) ∧
    update_model_version m v w =
      (Raise e, World (fs w) (seen w) (clock w) out).
Proof.
  intros Hfile Hj.
  destruct j as [|b|n|l|s|items|d]; try done.
  1-4: exists TypeError, (stdout w); split; [by left|]; run_update;
       repeat (rewrite Hfile; simpl); by destruct w.
  - destruct (PyStr.contains m s) eqn:Hin.
    + exists AttributeError, (stdout w). split; [by right|]. run_update.
      repeat (rewrite Hfile; simpl). rewrite Hin. simpl. by destruct w.
    + exists AttributeError, (stdout w ++ [ModelNotFound m]).
      split; [by right|]. run_update.
      repeat (rewrite Hfile; simpl). rewrite Hin. by simpl.
  - destruct (existsb (eq_str m) items) eqn:Hin.
    + exists AttributeError, (stdout w). split; [by right|]. run_update.
      repeat (rewrite Hfile; simpl). rewrite Hin. simpl. by destruct w.
    + exists AttributeError, (stdout w ++ [ModelNotFound m]).
      split; [by right|]. run_update.
      repeat (rewrite Hfile; simpl). rewrite Hin. by simpl.
Qed.

(** The two ways a call of [update_model_version] can go: it writes the
    updated dictionary and returns, or it does not return and has written
    nothing. *)
Lemma update_run_cases w m v :
  (∃ d : dict,
     fs w !! registry_path = Some (Document (JObj d)) ∧
     dict_in m d = true ∧
     (update_model_version m v w).1 = Return tt ∧
     fs (update_model_version m v w).2 =
       <[registry_path := Document (JObj (updated d m v (clock w)))]> (fs w))
  ∨
  ((update_model_version m v w).1 ≠ Return tt ∧
   fs (update_model_version m v w).2 = fs w ∧
   seen (update_model_version m v w).2 = seen w).
Proof.
  destruct (fs w !! registry_path) as [[| |j]|] eqn:Hfile.
  - right. by rewrite (update_run_corrupt _ _ _ Blank) by (done || by left).
  - right. by rewrite (update_run_corrupt _ _ _ Malformed) by (done || by right).
  - destruct (is_object j) eqn:Hj.
    + destruct j as [| | | | | |d]; try done.
      destruct (dict_in m d) eqn:Hin.
      * left. exists d. by rewrite (update_run_known _ _ _ d).
      * right. by rewrite (update_run_unknown _ _ _ d).
    + right. destruct (update_run_not_object w m v j) as (e & out & _ & ->);
        done.
  - right. by rewrite update_run_missing.
Qed.

Lemma main_cases argv w :
  (∃ prog m v, argv = [prog; m; v] ∧
     main argv w =
       update_model_version m (prefixed v)
         (World (fs w) (seen w) (clock w) (stdout w ++ warning v)))
  ∨
  (length argv ≠ 3 ∧
   main argv w =
     (SystemExit 1,
      World (fs w) (seen w) (clock w)
        (stdout w ++ [Usage; ExampleHeader; ExampleCommand]))).
Proof.
  destruct argv as [|prog [|m [|v [|x rest]]]];
    try (right; split; [done|]; unfold main, print, sys_exit, modify,
         mbind, M_bind; simpl; by rewrite <- !app_assoc).
  left. exists prog, m, v. split; [done|].
  unfold main, prefixed, warning.
  destruct (PyStr.startswith "v" v); simpl.
  - rewrite app_nil_r. by destruct w.
  - done.
Qed.

(** X5.  With a registry file that is empty or is not JSON, the command
    line tool ends in [JSONDecodeError] (status 1) before it has written
    anything; only the warning about a missing 'v' can have been printed. *)
Theorem cli_corrupt_registry prog m v files now c :
  files !! registry_path = Some c → c = Blank ∨ c = Malformed →
  let r := main [prog; m; v] (start files now) in
  r.1 = Raise JSONDecodeError ∧
  exit_status r.1 = 1%Z ∧
  fs r.2 = files ∧ seen r.2 = [] ∧
  stdout r.2 = warning v.
Proof.
  intros Hfile Hc r. unfold r.
  destruct (main_cases [prog; m; v] (start files now))
    as [(p' & m' & v' & [= <- <- <-] & ->) | [? _]]; [|done].
  by rewrite (update_run_corrupt _ _ _ c).
Qed.

Lemma cli_corrupt_registry_witness :
  let r := main ["update_registry.py"; "embedding_model"; "v1.1.0"]
             (start {[ registry_path := Malformed ]} sample_now) in
  r.1 = Raise JSONDecodeError ∧
  exit_status r.1 = 1%Z ∧
  fs r.2 = {[ registry_path := Malformed ]} ∧ seen r.2 = [] ∧
  stdout r.2 = warning "v1.1.0".
Proof.
  apply (cli_corrupt_registry "update_registry.py" "embedding_model" "v1.1.0"
           {[ registry_path := Malformed ]} sample_now Malformed).
  - reflexivity.
  - by right.
Defined.

(** X6.  A registry file that holds JSON other than an object (a list, a
    string, a number, ...) is never updated: whatever the name and the
    version, the tool ends in a [TypeError] or an [AttributeError], with
    status 1, and the file is as it was. *)
Theorem cli_not_an_object prog m v files now j :
  files !! registry_path = Some (Document j) → is_object j = false →
  let r := main [prog; m; v] (start files now) in
  (r.1 = Raise TypeError ∨ r.1 = Raise AttributeError) ∧
  exit_status r.1 = 1%Z ∧
  fs r.2 = files ∧ seen r.2 = [].
Proof.
  intros Hfile Hj r. unfold r.
  destruct (main_cases [prog; m; v] (start files now))
    as [(p' & m' & v' & [= <- <- <-] & ->) | [? _]]; [|done].
  edestruct (update_run_not_object) as (e & out & He & ->); [done..|].
  simpl. by destruct He as [-> | ->]; auto.
Qed.

Lemma cli_not_an_object_witness :
  let r := main ["update_registry.py"; "embedding_model"; "v1.1.0"]
             (start {[ registry_path := Document (JArr [JStr "embedding_model"]) ]}
                sample_now) in
  (r.1 = Raise TypeError ∨ r.1 = Raise AttributeError) ∧
  exit_status r.1 = 1%Z ∧
  fs r.2 = {[ registry_path := Document (JArr [JStr "embedding_model"]) ]} ∧
  seen r.2 = [].
Proof.
  apply (cli_not_an_object "update_registry.py" "embedding_model" "v1.1.0"
           {[ registry_path := Document (JArr [JStr "embedding_model"]) ]}
           sample_now (JArr [JStr "embedding_model"])); reflexivity.
Defined.

(** X7.  A run of the tool that ends in [sys.exit], or in one of the
    exceptions that reading and checking the registry raise
    ([JSONDecodeError], [TypeError], [AttributeError]), has written
    nothing: whatever the arguments and the files, the files are then what
    they were at the start. *)
Theorem cli_failure_writes_nothing argv w :
  (∃ code, (main argv w).1 = SystemExit code) ∨
  (main argv w).1 = Raise JSONDecodeError ∨
  (main argv w).1 = Raise TypeError ∨
  (main argv w).1 = Raise AttributeError →
  fs (main argv w).2 = fs w ∧ seen (main argv w).2 = seen w.
Proof.
  destruct (main_cases argv w) as [(p & m & v & -> & ->) | [_ ->]]; [|done].
  intros Hfail.
  destruct (update_run_cases
       (World (fs w) (seen w) (clock w) (stdout w ++ warning v)) m (prefixed v))
    as [(d & _ & _ & Hret & _) | (_ & ? & ?)]; [|done].
  rewrite Hret in Hfail. by destruct Hfail as [[code ?] | [? | [? | ?]]].
Qed.

Lemma cli_failure_writes_nothing_witness :
  let w := start sample_files sample_now in
  let argv := ["update_registry.py"; "nonexistent_model"; "v1.1.0"] in
  fs (main argv w).2 = fs w ∧ seen (main argv w).2 = seen w.
Proof.
  apply (cli_failure_writes_nothing
           ["update_registry.py"; "nonexistent_model"; "v1.1.0"]
           (start sample_files sample_now)).
  left. by exists 1%Z.
Defined.

(** X8.  No run of the tool touches a path other than the registry, and
    none creates the registry file or takes it away. *)
Theorem cli_touches_only_the_registry argv w :
  (∀ path, path ≠ registry_path →
           fs (main argv w).2 !! path = fs w !! path) ∧
  (is_Some (fs (main argv w).2 !! registry_path) ↔
   is_Some (fs w !! registry_path)).
Proof.
  destruct (main_cases argv w) as [(p & m & v & -> & ->) | [_ ->]]; [|done].
  destruct (update_run_cases
       (World (fs w) (seen w) (clock w) (stdout w ++ warning v)) m (prefixed v))
    as [(d & Hfile & _ & _ & ->) | (_ & -> & _)]; [|done].
  simpl in *. split.
  - intros path Hpath. by rewrite lookup_insert_ne.
  - rewrite lookup_insert_eq, Hfile. by split; eexists.
Qed.

Lemma cli_touches_only_the_registry_witness :
  let argv := ["update_registry.py"; "embedding_model"; "v1.1.0"] in
  let w := start sample_files sample_now in
  (∀ path, path ≠ registry_path →
           fs (main argv w).2 !! path = fs w !! path) ∧
  (is_Some (fs (main argv w).2 !! registry_path) ↔
   is_Some (fs w !! registry_path)).
Proof.
  exact (cli_touches_only_the_registry
           ["update_registry.py"; "embedding_model"; "v1.1.0"]
           (start sample_files sample_now)).
Defined.

(** ** Updates in a row *)

Lemma update_known files now (d : dict) m v :
  files !! registry_path = Some (Document (JObj d)) →
  dict_in m d = true →
  (update_model_version m v (start files now)).1 = Return tt ∧
  fs (update_model_version m v (start files now)).2 =
    <[registry_path := Document (JObj (updated d m v now))]> files.
Proof. intros Hfile Hin. by rewrite (update_run_known _ _ _ d). Qed.

Lemma dict_in_updated (d : dict) m v now k :
  dict_in m d = true →
  dict_in k (updated d m v now) =
    dict_in k d || bool_decide (k = "last_updated").
Proof.
  intros Hin. unfold updated. rewrite !dict_in_set.
  destruct (decide (k = m)) as [->|Hne].
  - rewrite Hin. by rewrite !orb_true_r.
  - rewrite (bool_decide_false (k = m)) by done. simpl. apply orb_comm.
Qed.

Lemma updated_twice (d : dict) m v1 v2 n1 n2 :
  dict_in m d = true →
  updated (updated d m v1 n1) m v2 n2 = updated d m v2 n2.
Proof.
  intros Hin. unfold updated.
  destruct (decide (m = "last_updated")) as [->|Hne].
  - by rewrite !dict_set_set.
  - rewrite <- (dict_set_comm (dict_set d m (JStr v1)) m (JStr v2)
                  "last_updated") by (done || apply dict_in_set_same).
    by rewrite !dict_set_set.
Qed.

Lemma updated_swap (d : dict) m1 v1 m2 v2 n1 n2 :
  m1 ≠ m2 → m1 ≠ "last_updated" → m2 ≠ "last_updated" →
  dict_in m1 d = true → dict_in m2 d = true →
  updated (updated d m1 v1 n1) m2 v2 n2 =
  updated (updated d m2 v2 n1) m1 v1 n2.
Proof.
  intros H12 H1 H2 Hin1 Hin2. unfold updated.
  rewrite <- (dict_set_comm (dict_set d m1 (JStr v1)) m2 (JStr v2)
                "last_updated")
    by (done || by rewrite dict_in_set, Hin2, orb_true_r).
  rewrite <- (dict_set_comm (dict_set d m2 (JStr v2)) m1 (JStr v1)
                "last_updated")
    by (done || by rewrite dict_in_set, Hin1, orb_true_r).
  rewrite !dict_set_set.
  by rewrite (dict_set_comm d m1 (JStr v1) m2 (JStr v2)).
Qed.

(** X9.  The last write wins: of two updates of one name in a row, both
    carried out, the files end as if only the second had been run; the
    first version and the first time leave no trace. *)
Theorem update_last_write_wins files (d : dict) m v1 v2 n1 n2 :
  files !! registry_path = Some (Document (JObj d)) →
  dict_in m d = true →
  let r1 := update_model_version m v1 (start files n1) in
  let r2 := update_model_version m v2 (start (fs r1.2) n2) in
  r1.1 = Return tt ∧ r2.1 = Return tt ∧
  fs r2.2 = fs (update_model_version m v2 (start files n2)).2.
Proof.
  intros Hfile Hin r1 r2.
  destruct (update_known files n1 d m v1) as [Hr1 Hfs1]; [done..|].
  destruct (update_known files n2 d m v2) as [_ Hfs]; [done..|].
  destruct (update_known (fs r1.2) n2 (updated d m v1 n1) m v2) as [Hr2 Hfs2].
  { unfold r1. by rewrite Hfs1, lookup_insert_eq. }
  { by rewrite dict_in_updated, Hin. }
  do 2 (split; [done|]). unfold r2. rewrite Hfs2, Hfs. unfold r1.
  by rewrite Hfs1, insert_insert_eq, updated_twice.
Qed.

Lemma update_last_write_wins_witness :
  let r1 := update_model_version "embedding_model" "v1.1.0"
              (start sample_files "2024-06-01T12:00:00") in
  let r2 := update_model_version "embedding_model" "v1.2.0"
              (start (fs r1.2) "2024-06-02T08:30:00") in
  r1.1 = Return tt ∧ r2.1 = Return tt ∧
  fs r2.2 =
    fs (update_model_version "embedding_model" "v1.2.0"
          (start sample_files "2024-06-02T08:30:00")).2.
Proof.
  apply (update_last_write_wins sample_files sample_registry
           "embedding_model" "v1.1.0" "v1.2.0"); reflexivity.
Defined.

(** X10.  Updates of two different models do not get in each other's
    way: carried out in either order, at the same two times, they leave
    the same files. *)
Theorem update_two_models_commute files (d : dict) m1 v1 m2 v2 n1 n2 :
  files !! registry_path = Some (Document (JObj d)) →
  dict_in m1 (entries d) = true → dict_in m2 (entries d) = true →
  m1 ≠ m2 →
  let a1 := update_model_version m1 v1 (start files n1) in
  let a2 := update_model_version m2 v2 (start (fs a1.2) n2) in
  let b1 := update_model_version m2 v2 (start files n1) in
  let b2 := update_model_version m1 v1 (start (fs b1.2) n2) in
  a2.1 = Return tt ∧ b2.1 = Return tt ∧ fs a2.2 = fs b2.2.
Proof.
  intros Hfile [Hr1 Hin1]%EntriesFacts.dict_in_entries
    [Hr2 Hin2]%EntriesFacts.dict_in_entries Hne a1 a2 b1 b2.
  apply EntriesFacts.reserved_false in Hr1 as [Hlu1 _], Hr2 as [Hlu2 _].
  destruct (update_known files n1 d m1 v1) as [_ Ha1]; [done..|].
  destruct (update_known files n1 d m2 v2) as [_ Hb1]; [done..|].
  destruct (update_known (fs a1.2) n2 (updated d m1 v1 n1) m2 v2) as [Ha2 Hfa].
  { unfold a1. by rewrite Ha1, lookup_insert_eq. }
  { by rewrite dict_in_updated, Hin2. }
  destruct (update_known (fs b1.2) n2 (updated d m2 v2 n1) m1 v1) as [Hb2 Hfb].
  { unfold b1. by rewrite Hb1, lookup_insert_eq. }
  { by rewrite dict_in_updated, Hin1. }
  do 2 (split; [done|]). unfold a2, b2. rewrite Hfa, Hfb. unfold a1, b1.
  rewrite Ha1, Hb1, !insert_insert_eq. by rewrite updated_swap.
Qed.

Lemma update_two_models_commute_witness :
  let a1 := update_model_version "embedding_model" "v1.1.0"
              (start sample_files "2024-06-01T12:00:00") in
  let a2 := update_model_version "translation_model" "v2.0.0"
              (start (fs a1.2) "2024-06-02T08:30:00") in
  let b1 := update_model_version "translation_model" "v2.0.0"
              (start sample_files "2024-06-01T12:00:00") in
  let b2 := update_model_version "embedding_model" "v1.1.0"
              (start (fs b1.2) "2024-06-02T08:30:00") in
  a2.1 = Return tt ∧ b2.1 = Return tt ∧ fs a2.2 = fs b2.2.
Proof.
  apply (update_two_models_commute sample_files sample_registry
           "embedding_model" "v1.1.0" "translation_model" "v2.0.0");
    (reflexivity || discriminate).
Defined.

(** X11.  An update neither retires a name nor invents one, apart from
    [last_updated]: after an update that was carried out, a further update
    of a name is carried out exactly when the name was a key of the
    document before, or is [last_updated]. *)
Theorem update_keeps_known_names files (d : dict) m v now k v' now' :
  files !! registry_path = Some (Document (JObj d)) →
  dict_in m d = true →
  let r := update_model_version m v (start files now) in
  (update_model_version k v' (start (fs r.2) now')).1 = Return tt ↔
  dict_in k d = true ∨ k = "last_updated".
Proof.
  intros Hfile Hin r.
  destruct (update_known files now d m v) as [_ Hfs]; [done..|].
  assert (fs r.2 !! registry_path =
            Some (Document (JObj (updated d m v now)))) as Hfile'.
  { unfold r. by rewrite Hfs, lookup_insert_eq. }
  pose proof (dict_in_updated d m v now k Hin) as Hk.
  destruct (dict_in k (updated d m v now)) eqn:Hin'.
  - rewrite (update_run_known _ _ _ (updated d m v now)) by done. simpl.
    split; [intros _|done]. symmetry in Hk.
    apply orb_true_iff in Hk as [?|?%bool_decide_eq_true]; auto.
  - rewrite (update_run_unknown _ _ _ (updated d m v now)) by done. simpl.
    split; [done|]. symmetry in Hk. apply orb_false_iff in Hk as [Hk1 Hk2].
    apply bool_decide_eq_false in Hk2. intros [?|?]; congruence.
Qed.

Lemma update_keeps_known_names_witness :
  let r := update_model_version "embedding_model" "v1.1.0"
             (start sample_files sample_now) in
  (update_model_version "translation_model" "v3.0.0"
     (start (fs r.2) "2024-07-01T00:00:00")).1 = Return tt ↔
  dict_in "translation_model" sample_registry = true ∨
  "translation_model" = "last_updated".
Proof.
  apply (update_keeps_known_names sample_files sample_registry
           "embedding_model" "v1.1.0" sample_now); reflexivity.
Defined.

End UpdateLaws.

(* ================================================================== *)
(** * Every start of the serving process *)

Module StartupLaws.
Import Json Py Service DictFacts StartupClaims Samples Views.

Lemma load_models_object files ml (d : dict) :
  files !! registry_path = Some (Document (JObj d)) →
  load_models (start files ml) =
    match ml with
    | None =>
        (Return tt,
         World files ml (exposed d)
           (log_with_registry d ++
              [(INFO, EmptyLine); (INFO, Rule); (INFO, AllModelsLoaded);
               (INFO, Rule)]))
    | Some e =>
        (Raise e,
         World files ml (exposed d)
           (log_with_registry d ++ [(ERROR, ErrorLoadingModels e)]))
    end.
Proof.
  intros Hfile. run_startup. repeat (rewrite Hfile; simpl).
  unfold for_each, when, logger, modify, mbind, M_bind, mret, M_ret. simpl.
  by destruct ml.
Qed.

Lemma load_models_not_object files ml j :
  files !! registry_path = Some (Document j) → is_object j = false →
  load_models (start files ml) =
    (Raise AttributeError,
     World files ml []
       [(INFO, Rule); (INFO, Starting); (INFO, Rule);
        (ERROR, ErrorLoadingModels AttributeError)]).
Proof.
  intros Hfile Hj. destruct j; try done;
    run_startup; by repeat (rewrite Hfile; simpl).
Qed.

(** X12.  With a registry that is a JSON object, the version map the
    service exposes has exactly the keys [embedding_model],
    [emergency_classifier], [translation_model] and [last_updated], in
    this order, each with the value of the registry or with "unknown"
    when the registry lacks the key; no other key of the registry, such as
    [metadata], is exposed, and the values are not checked. *)
Theorem startup_exposes_registry files ml (d : dict) :
  files !! registry_path = Some (Document (JObj d)) →
  let r := load_models (start files ml) in
  model_versions r.2 = exposed d ∧
  dict_keys (model_versions r.2) =
    ["embedding_model"; "emergency_classifier"; "translation_model";
     "last_updated"] ∧
  (∀ k, dict_get (model_versions r.2) k =
          if bool_decide (k ∈ ["embedding_model"; "emergency_classifier";
                               "translation_model"; "last_updated"])
          then Some (dict_get_default d k (JStr "unknown"))
          else None) ∧
  (ml = None → r.1 = Return tt).
Proof.
  intros Hfile r. unfold r. rewrite (load_models_object _ _ d) by done.
  assert (∀ k, dict_get (exposed d) k =
            if bool_decide (k ∈ ["embedding_model"; "emergency_classifier";
                                 "translation_model"; "last_updated"])
            then Some (dict_get_default d k (JStr "unknown"))
            else None) as Hget.
  { intros k. unfold exposed. simpl.
    repeat (case_decide;
            [subst; rewrite bool_decide_true; [done|];
             rewrite !elem_of_cons; by auto 6|]).
    rewrite bool_decide_false; [done|].
    rewrite !elem_of_cons, elem_of_nil.
    intros [?|[?|[?|[?|[]]]]]; congruence. }
  destruct ml; simpl; repeat split; try done.
Qed.

Lemma startup_exposes_registry_witness :
  let r := load_models (start sample_files None) in
  model_versions r.2 = exposed sample_registry ∧
  dict_keys (model_versions r.2) =
    ["embedding_model"; "emergency_classifier"; "translation_model";
     "last_updated"] ∧
  (∀ k, dict_get (model_versions r.2) k =
          if bool_decide (k ∈ ["embedding_model"; "emergency_classifier";
                               "translation_model"; "last_updated"])
          then Some (dict_get_default sample_registry k (JStr "unknown"))
          else None) ∧
  ((None : option exn) = None → r.1 = Return tt).
Proof.
  apply (startup_exposes_registry sample_files None sample_registry).
  reflexivity.
Defined.

(** How every start-up goes, by what is found at the path of the
    registry. *)
Lemma load_models_cases files ml :
  let r := load_models (start files ml) in
  fs r.2 = files ∧ ml_models r.2 = ml ∧
  match r.1 with
  | Return _ =>
      ml = None ∧
      (files !! registry_path = None ∨
       ∃ d : dict, files !! registry_path = Some (Document (JObj d))) ∧
      last (log r.2) = Some (INFO, Rule)
  | Raise e =>
      (ml = Some e ∨
       ¬ (files !! registry_path = None ∨
          ∃ d : dict, files !! registry_path = Some (Document (JObj d)))) ∧
      last (log r.2) = Some (ERROR, ErrorLoadingModels e)
  | SystemExit _ => False
  end.
Proof.
  intros r. unfold r.
  assert (∀ c, files !! registry_path = Some c → c = Blank ∨ c = Malformed →
    ¬ (files !! registry_path = None ∨
       ∃ d : dict, files !! registry_path = Some (Document (JObj d)))) as Hbad.
  { intros c -> Hc [?|[d [= ->]]]; [done|]. by destruct Hc. }
  destruct (files !! registry_path) as [[| |j]|] eqn:Hfile.
  - rewrite (load_models_corrupt _ _ Blank) by (done || by left). simpl.
    do 2 (split; [done|]). split; [|done]. right. apply (Hbad Blank); auto.
  - rewrite (load_models_corrupt _ _ Malformed) by (done || by right). simpl.
    do 2 (split; [done|]). split; [|done]. right. apply (Hbad Malformed); auto.
  - destruct (is_object j) eqn:Hj.
    + destruct j as [| | | | | |d]; try done.
      rewrite (load_models_object _ _ d) by done.
      destruct ml as [e|]; simpl.
      * do 2 (split; [done|]). split; [by left|done].
      * do 3 (split; [done|]). split; [right; by eexists|done].
    + rewrite (load_models_not_object _ _ j) by done. simpl.
      do 2 (split; [done|]). split; [|done].
      right. intros [?|[d [= ->]]]; done.
  - rewrite load_models_missing by done.
    destruct ml as [e|]; simpl.
    * do 2 (split; [done|]). split; [by left|done].
    * do 3 (split; [done|]). split; [by left|done].
Qed.

(** X13.  The start-up ends normally exactly when the loading of the
    models raises nothing and the registry file is either absent or a
    JSON object. *)
Theorem startup_succeeds_iff files ml :
  (load_models (start files ml)).1 = Return tt ↔
  ml = None ∧
  (files !! registry_path = None ∨
   ∃ d : dict, files !! registry_path = Some (Document (JObj d))).
Proof.
  pose proof (load_models_cases files ml) as (_ & _ & H). simpl in H.
  destruct (load_models (start files ml)).1 as [[]|code|e] eqn:E.
  - split; [intros _|done]. by destruct H as (? & ? & _).
  - done.
  - split; [done|]. intros [-> Hfile]. by destruct H as [[?|?] _].
Qed.

Lemma startup_succeeds_iff_witness :
  (load_models (start sample_files None)).1 = Return tt.
Proof.
  apply (proj2 (startup_succeeds_iff sample_files None)).
  split; [reflexivity|]. right. by exists sample_registry.
Defined.

(** X14.  The hook never ends in [SystemExit]; when it raises an
    exception, the last record it has logged is the ERROR record that
    carries this exception, and when it returns, the closing rule. *)
Theorem startup_logs_what_it_raises files ml :
  match (load_models (start files ml)).1 with
  | Return _ =>
      last (log (load_models (start files ml)).2) = Some (INFO, Rule)
  | Raise e =>
      last (log (load_models (start files ml)).2) =
        Some (ERROR, ErrorLoadingModels e)
  | SystemExit _ => False
  end.
Proof.
  pose proof (load_models_cases files ml) as (_ & _ & H). simpl in H.
  destruct (load_models (start files ml)).1; [|done|]; apply H.
Qed.

(** X15.  Write, then read: after an update of a name [m] to [v] that
    was carried out at time [now], a start-up exposes the time of the
    update as [last_updated], [v] for [m] when [m] is one of the three
    models, and for the other models what the registry held before. *)
Theorem update_then_startup files now (d : dict) m v ml :
  files !! registry_path = Some (Document (JObj d)) →
  dict_in m d = true →
  let u := Registry.update_model_version m v (Registry.start files now) in
  let r := load_models (start (Registry.fs u.2) ml) in
  model_versions r.2 = exposed (Registry.updated d m v now) ∧
  dict_get (model_versions r.2) "last_updated" = Some (JStr (now +:+ "Z")) ∧
  ∀ k, k ∈ ["embedding_model"; "emergency_classifier"; "translation_model"] →
       dict_get (model_versions r.2) k =
         Some (if decide (k = m) then JStr v
               else dict_get_default d k (JStr "unknown")).
Proof.
  intros Hfile Hin u r.
  destruct (UpdateLaws.update_known files now d m v) as [_ Hfs]; [done..|].
  unfold r, u. rewrite Hfs.
  rewrite (load_models_object _ _ (Registry.updated d m v now))
    by by rewrite lookup_insert_eq.
  assert (model_versions
            (if ml is Some e
             then (Raise e,
                   World (<[registry_path :=
                              Document (JObj (Registry.updated d m v now))]> files)
                     ml (exposed (Registry.updated d m v now))
                     (log_with_registry (Registry.updated d m v now) ++
                        [(ERROR, ErrorLoadingModels e)]))
             else (Return tt,
                   World (<[registry_path :=
                              Document (JObj (Registry.updated d m v now))]> files)
                     ml (exposed (Registry.updated d m v now))
                     (log_with_registry (Registry.updated d m v now) ++
                        [(INFO, EmptyLine); (INFO, Rule);
                         (INFO, AllModelsLoaded); (INFO, Rule)]))).2
          = exposed (Registry.updated d m v now)) as -> by by destruct ml.
  split; [done|].
  unfold exposed, dict_get_default, Registry.updated. simpl. split.
  - by rewrite dict_get_set_eq.
  - intros k Hk. rewrite !elem_of_cons in Hk.
    assert (k ≠ "last_updated") as Hlu.
    { destruct Hk as [->|[->|[->|Hk]]]; try done. by apply elem_of_nil in Hk. }
    assert (dict_get
              (dict_set (dict_set d m (JStr v)) "last_updated"
                 (JStr (now +:+ "Z"))) k =
            if decide (k = m) then Some (JStr v) else dict_get d k) as Hget.
    { rewrite dict_get_set_ne by done.
      destruct (decide (k = m)) as [->|Hne].
      - by rewrite dict_get_set_eq.
      - by rewrite dict_get_set_ne. }
    destruct Hk as [->|[->|[->|Hk]]]; [| | |by apply elem_of_nil in Hk];
      simpl; rewrite Hget; by destruct (decide (_ = m)).
Qed.

Lemma update_then_startup_witness :
  let u := Registry.update_model_version "embedding_model" "v1.1.0"
             (Registry.start sample_files sample_now) in
  let r := load_models (start (Registry.fs u.2) None) in
  model_versions r.2 =
    exposed (Registry.updated sample_registry "embedding_model" "v1.1.0"
               sample_now) ∧
  dict_get (model_versions r.2) "last_updated" =
    Some (JStr (sample_now +:+ "Z")) ∧
  ∀ k, k ∈ ["embedding_model"; "emergency_classifier"; "translation_model"] →
       dict_get (model_versions r.2) k =
         Some (if decide (k = "embedding_model") then JStr "v1.1.0"
               else dict_get_default sample_registry k (JStr "unknown")).
Proof.
  apply (update_then_startup sample_files sample_now sample_registry
           "embedding_model" "v1.1.0" None); reflexivity.
Defined.

End StartupLaws.

(* ================================================================== *)
(** * The version bump after training *)

Module TrainerLaws.
Import Json Py PyPure PyStr PyInt Version Trainer DictFacts Samples Views.
Import VersionFacts BumpPolicy BumpLaws.

Lemma startswith_numbered a b c : startswith "v" (numbered a b c) = true.
Proof. reflexivity. Qed.

(** The child process, when the registry has the key. *)
Lemma subprocess_known w (d : dict) new_version :
  fs w !! registry_path = Some (Document (JObj d)) →
  dict_in "embedding_model" d = true →
  startswith "v" new_version = true →
  subprocess_run_update_registry ["embedding_model"; new_version] w =
    (Return tt,
     World
       (<[registry_path :=
            Document (JObj (Registry.updated d "embedding_model" new_version
                              (clock w)))]> (fs w))
       (clock w)
       (stdout w ++
          [Registry.Updated "embedding_model"
             (dict_get_default d "embedding_model" (JStr "unknown")) new_version;
           Registry.RegistrySaved registry_path])
       (log w)).
Proof.
  intros Hfile Hin Hv. unfold subprocess_run_update_registry.
  rewrite CliClaims.main_run. unfold Registry.prefixed, Registry.warning.
  rewrite Hv. by rewrite (RegistryFacts.update_run_known _ _ _ d).
Qed.

(** The child process, when the registry lacks the key. *)
Lemma subprocess_unknown w (d : dict) new_version :
  fs w !! registry_path = Some (Document (JObj d)) →
  dict_in "embedding_model" d = false →
  startswith "v" new_version = true →
  subprocess_run_update_registry ["embedding_model"; new_version] w =
    (Raise CalledProcessError,
     World (fs w) (clock w)
       (stdout w ++
          [Registry.ModelNotFound "embedding_model";
           Registry.AvailableModels (dict_keys d)])
       (log w)).
Proof.
  intros Hfile Hin Hv. unfold subprocess_run_update_registry.
  rewrite CliClaims.main_run. unfold Registry.prefixed, Registry.warning.
  rewrite Hv. by rewrite (RegistryFacts.update_run_unknown _ _ _ d).
Qed.

#[local] Arguments subprocess_run_update_registry : simpl never.

(** The conversions of the block are those of [bump_patch]: the block
    goes on with what [bump_patch] returns and raises what it raises. *)
Lemma conversions_as_bump_patch {A} s m (k : string → M world A) w :
  match_version s = Some m →
  ('(major, minor, patch) ← call (int_groups m);
   major ← call (py_str major);
   minor ← call (py_str minor);
   patch ← call (py_str (patch + 1));
   k ("v" +:+ major +:+ "." +:+ minor +:+ "." +:+ patch)) w =
  match bump_patch s with
  | Ok new_version => k new_version w
  | Err e => (Raise e, w)
  end.
Proof.
  intros Hm. unfold bump_patch. rewrite Hm.
  unfold call, raise, mbind, M_bind, result_bind, mret, M_ret.
  destruct (int_groups m) as [[[major minor] patch]|e]; [|done].
  destruct (py_str major) as [major'|e]; [|done].
  destruct (py_str minor) as [minor'|e]; [|done].
  by destruct (py_str (patch + 1)) as [patch'|e].
Qed.

Section OneRun.
Variable w : world.
Variable d : dict.
Hypothesis file : fs w !! registry_path = Some (Document (JObj d)).

(** The block up to the conversions, when the version it works on
    matches. *)
Lemma bump_run_conversions s m :
  dict_get_default d "embedding_model" (JStr "v1.0.0") = JStr s →
  match_version s = Some m →
  auto_version_bump true w =
    match bump_patch s with
    | Ok new_version =>
        try_except (
          subprocess_run_update_registry ["embedding_model"; new_version];;
          logger Service.INFO (VersionUpdated s new_version))
        (λ e, logger Service.WARNING (FailedToUpdateRegistry e)) w
    | Err e => (Raise e, w)
    end.
Proof.
  intros Hget Hm.
  etrans; [|exact (conversions_as_bump_patch s m
    (λ new_version,
       try_except (
         subprocess_run_update_registry ["embedding_model"; new_version];;
         logger Service.INFO (VersionUpdated s new_version))
       (λ e, logger Service.WARNING (FailedToUpdateRegistry e))) w Hm)].
  run_bump. repeat (rewrite file; simpl).
  unfold dict_get_default in *. by rewrite Hget, Hm.
Qed.

(** The stored version matches and its patch bump is returned: the child
    is run on it. *)
Lemma bump_run_matched s m new_version :
  dict_get d "embedding_model" = Some (JStr s) →
  match_version s = Some m →
  bump_patch s = Ok new_version →
  auto_version_bump true w =
    (Return tt,
     World
       (<[registry_path :=
            Document (JObj (Registry.updated d "embedding_model" new_version
                              (clock w)))]> (fs w))
       (clock w)
       (stdout w ++
          [Registry.Updated "embedding_model" (JStr s) new_version;
           Registry.RegistrySaved registry_path])
       (log w ++ [(Service.INFO, VersionUpdated s new_version)])).
Proof.
  intros Hget Hm Hbump.
  rewrite (bump_run_conversions s m) by (done || unfold dict_get_default; by rewrite Hget).
  rewrite Hbump. unfold try_except, logger, modify, mbind, M_bind.
  destruct (bump_patch_returned _ _ _ Hm Hbump) as (_ & Hv).
  rewrite (subprocess_known w d); [| done | | by rewrite Hv].
  - unfold dict_get_default. by rewrite Hget.
  - unfold dict_in. by rewrite Hget.
Qed.

(** The stored version matches and a conversion of its patch bump
    raises: the block raises the same, before it has done anything. *)
Lemma bump_run_overflow s m e :
  dict_get d "embedding_model" = Some (JStr s) →
  match_version s = Some m →
  bump_patch s = Err e →
  auto_version_bump true w = (Raise e, w).
Proof.
  intros Hget Hm Hbump.
  rewrite (bump_run_conversions s m) by (done || unfold dict_get_default; by rewrite Hget).
  by rewrite Hbump.
Qed.

(** The stored version does not match: nothing is done. *)
Lemma bump_run_unmatched s :
  dict_get d "embedding_model" = Some (JStr s) →
  match_version s = None →
  auto_version_bump true w = (Return tt, w).
Proof.
  intros Hget Hm. run_bump. repeat (rewrite file; simpl).
  unfold dict_get_default. rewrite Hget, Hm. by destruct w.
Qed.

(** The stored value is not a string. *)
Lemma bump_run_not_a_string x :
  dict_get d "embedding_model" = Some x →
  (∀ s, x ≠ JStr s) →
  auto_version_bump true w = (Raise TypeError, w).
Proof.
  intros Hget Hx. run_bump. repeat (rewrite file; simpl).
  unfold dict_get_default. rewrite Hget.
  destruct x; try by destruct w. by destruct (Hx s).
Qed.

(** The registry has no [embedding_model]. *)
Lemma bump_run_no_entry :
  dict_get d "embedding_model" = None →
  auto_version_bump true w =
    (Return tt,
     World (fs w) (clock w)
       (stdout w ++
          [Registry.ModelNotFound "embedding_model";
           Registry.AvailableModels (dict_keys d)])
       (log w ++
          [(Service.WARNING, FailedToUpdateRegistry CalledProcessError)])).
Proof.
  intros Hget.
  rewrite (bump_run_conversions "v1.0.0" (ReMatch "1" "0" "0" ""))
    by (done || unfold dict_get_default; by rewrite Hget).
  replace (bump_patch "v1.0.0") with (Ok "v1.0.1" : result string)
    by by vm_compute.
  unfold try_except, logger, modify, mbind, M_bind.
  rewrite (subprocess_unknown w d); [done..| |done].
  unfold dict_in. by rewrite Hget.
Qed.
End OneRun.

(** X16.  After a training run, when the registry holds for
    [embedding_model] a string that starts with a version and
    [bump_patch] returns the patch bump of that string, the registry holds
    that patch bump and the time of the run; the block returns and logs
    the change.  When [bump_patch] raises instead, which it does when a
    number of the version has more than 4300 digits or the incremented
    patch number has, the block raises the same exception: the conversions
    are made before the [try], and nothing has been written or logged. *)
Theorem bump_after_training files now (d : dict) s :
  files !! registry_path = Some (Document (JObj d)) →
  dict_get d "embedding_model" = Some (JStr s) →
  has_version_prefix s →
  let r := auto_version_bump true (start files now) in
  match bump_patch s with
  | Ok new_version =>
      r.1 = Return tt ∧
      fs r.2 =
        <[registry_path :=
            Document (JObj (Registry.updated d "embedding_model" new_version
                              now))]> files ∧
      log r.2 = [(Service.INFO, VersionUpdated s new_version)]
  | Err e =>
      e = ValueError ∧ r = (Raise ValueError, start files now)
  end.
Proof.
  intros Hfile Hget (g1 & g2 & g3 & rest & -> & H1 & H2 & H3) r. unfold r.
  pose proof (match_version_text g1 g2 g3 rest H1 H2 H3) as Hm.
  destruct (bump_patch _) as [new_version|e] eqn:Hbump.
  - by rewrite (bump_run_matched (start files now) d Hfile _ _ _ Hget Hm Hbump).
  - rewrite (bump_run_overflow (start files now) d Hfile _ _ _ Hget Hm Hbump).
    rewrite (bump_patch_matched _ _ Hm) in Hbump.
    destruct (convertible _ _ _ _); [done|]. by injection Hbump as <-.
Qed.

Lemma sample_has_version_prefix : has_version_prefix "v1.0.0".
Proof. by exists "1", "0", "0", "". Qed.

Lemma bump_after_training_witness :
  let r := auto_version_bump true (start sample_files sample_now) in
  r.1 = Return tt ∧
  fs r.2 =
    <[registry_path :=
        Document (JObj (Registry.updated sample_registry "embedding_model"
                          "v1.0.1" sample_now))]> sample_files ∧
  log r.2 = [(Service.INFO, VersionUpdated "v1.0.0" "v1.0.1")].
Proof.
  exact (bump_after_training sample_files sample_now sample_registry "v1.0.0"
           eq_refl eq_refl sample_has_version_prefix).
Defined.

(** X17.  Training runs add up: after [n] runs on a registry whose
    [embedding_model] is v<a>.<b>.<c>, with the three numbers and c+n
    below 10^4300, it is v<a>.<b>.<c+n>, and every key other than
    [embedding_model] and [last_updated] has the value it had before the
    first run. *)
Theorem training_runs_add_up times files (d : dict) a b c :
  files !! registry_path = Some (Document (JObj d)) →
  dict_get d "embedding_model" = Some (JStr (numbered a b c)) →
  (a < int_str_bound)%N → (b < int_str_bound)%N →
  (c + N.of_nat (length times) < int_str_bound)%N →
  ∃ d' : dict,
    train_runs times files !! registry_path = Some (Document (JObj d')) ∧
    dict_get d' "embedding_model" =
      Some (JStr (numbered a b (c + N.of_nat (length times)))) ∧
    ∀ k, k ≠ "embedding_model" → k ≠ "last_updated" →
         dict_get d' k = dict_get d k.
Proof.
  intros Hfile Hget Ha Hb. revert files d c Hfile Hget.
  induction times as [|now times IH]; intros files d c Hfile Hget Hc.
  - exists d. simpl. by rewrite N.add_0_r.
  - cbn [train_runs length] in *.
    assert (bump_patch (numbered a b c) = Ok (numbered a b (c + 1))) as Hbump.
    { rewrite bump_patch_numbered by (done || lia).
      by rewrite (proj2 (N.ltb_lt _ _)) by lia. }
    rewrite (bump_run_matched (start files now) d Hfile _ _ _ Hget
               (match_version_numbered a b c) Hbump).
    cbn [fst snd fs start clock].
    destruct (IH (<[registry_path :=
                      Document (JObj (Registry.updated d "embedding_model"
                                        (numbered a b (c + 1)) now))]> files)
                (Registry.updated d "embedding_model"
                   (numbered a b (c + 1)) now) (c + 1)%N)
      as (d' & Hfile' & Hget' & Hframe).
    { by rewrite lookup_insert_eq. }
    { unfold Registry.updated. by rewrite dict_get_set_ne, dict_get_set_eq. }
    { lia. }
    exists d'. split; [done|]. split.
    + rewrite Hget'. do 3 f_equal. lia.
    + intros k Hk1 Hk2. rewrite Hframe by done.
      unfold Registry.updated. by rewrite !dict_get_set_ne.
Qed.

Lemma training_runs_add_up_witness :
  ∃ d' : dict,
    train_runs ["2024-06-01T12:00:00"; "2024-06-08T12:00:00"] sample_files
      !! registry_path = Some (Document (JObj d')) ∧
    dict_get d' "embedding_model" =
      Some (JStr (numbered 1 0
                    (0 + N.of_nat (length ["2024-06-01T12:00:00";
                                           "2024-06-08T12:00:00"])))) ∧
    ∀ k, k ≠ "embedding_model" → k ≠ "last_updated" →
         dict_get d' k = dict_get sample_registry k.
Proof.
  apply (training_runs_add_up ["2024-06-01T12:00:00"; "2024-06-08T12:00:00"]
           sample_files sample_registry 1 0 0); by vm_compute.
Defined.

(** X18.  When the registry is an object without [embedding_model], the
    block takes "v1.0.0" as the current version and asks the script to
    write "v1.0.1"; the script refuses the unknown name, and the block
    logs a warning and returns.  The registry is as it was: the default
    never gets written. *)
Theorem bump_without_entry files now (d : dict) :
  files !! registry_path = Some (Document (JObj d)) →
  dict_in "embedding_model" d = false →
  let r := auto_version_bump true (start files now) in
  r.1 = Return tt ∧
  fs r.2 = files ∧
  stdout r.2 =
    [Registry.ModelNotFound "embedding_model";
     Registry.AvailableModels (dict_keys d)] ∧
  log r.2 = [(Service.WARNING, FailedToUpdateRegistry CalledProcessError)].
Proof.
  intros Hfile Hin%dict_in_false r. unfold r.
  by rewrite (bump_run_no_entry (start files now) d).
Qed.

Lemma bump_without_entry_witness :
  let files : gmap string content :=
    {[ registry_path := Document (JObj [("translation_model", JStr "v1.0.0")]) ]} in
  let r := auto_version_bump true (start files sample_now) in
  r.1 = Return tt ∧
  fs r.2 = files ∧
  stdout r.2 =
    [Registry.ModelNotFound "embedding_model";
     Registry.AvailableModels (dict_keys [("translation_model", JStr "v1.0.0")])] ∧
  log r.2 = [(Service.WARNING, FailedToUpdateRegistry CalledProcessError)].
Proof.
  apply (bump_without_entry
           {[ registry_path := Document (JObj [("translation_model", JStr "v1.0.0")]) ]}
           sample_now [("translation_model", JStr "v1.0.0")]); reflexivity.
Defined.

(** X19.  The block does nothing at all, and says nothing, in three
    cases: the bump is switched off, there is no registry file, or the
    string stored for [embedding_model] does not start with a version. *)
Theorem bump_skipped_silently w enabled :
  enabled = false ∨
  fs w !! registry_path = None ∨
  (∃ (d : dict) s,
     fs w !! registry_path = Some (Document (JObj d)) ∧
     dict_get d "embedding_model" = Some (JStr s) ∧
     ¬ has_version_prefix s) →
  auto_version_bump enabled w = (Return tt, w).
Proof.
  intros [-> | H]; [done|].
  destruct enabled; [|done].
  destruct H as [Hfile | (d & s & Hfile & Hget & Hs)].
  - run_bump. by rewrite Hfile.
  - apply (bump_run_unmatched _ d Hfile s Hget).
    by apply match_version_none.
Qed.

Lemma bump_skipped_silently_witness :
  let w := start {[ registry_path :=
                      Document (JObj [("embedding_model", JStr "unknown")]) ]}
             sample_now in
  auto_version_bump true w = (Return tt, w).
Proof.
  apply (bump_skipped_silently
           (start {[ registry_path :=
                       Document (JObj [("embedding_model", JStr "unknown")]) ]}
              sample_now) true).
  right. right. exists [("embedding_model", JStr "unknown")], "unknown".
  split; [reflexivity|]. split; [reflexivity|].
  intros (g1 & g2 & g3 & rest & Hs & _). discriminate Hs.
Defined.

(** X20.  A failure of the update script never fails the training run:
    the block never ends in [SystemExit] and never raises the
    [CalledProcessError] of a child that has failed.  When it raises, the
    exception comes from what it does before the [try] (reading the
    registry, matching and converting the version), and nothing has been
    written, printed or logged. *)
Theorem bump_failures w enabled :
  match (auto_version_bump enabled w).1 with
  | Return _ => True
  | SystemExit _ => False
  | Raise e =>
      e ≠ CalledProcessError ∧
      (auto_version_bump enabled w).2 = w
  end.
Proof.
  destruct enabled; [|done].
  destruct (fs w !! registry_path) as [[| |j]|] eqn:Hfile.
  - run_bump. repeat (rewrite Hfile; simpl). split; [done|by destruct w].
  - run_bump. repeat (rewrite Hfile; simpl). split; [done|by destruct w].
  - destruct (is_object j) eqn:Hj.
    + destruct j as [| | | | | |d]; try done.
      destruct (dict_get d "embedding_model") as [x|] eqn:Hget.
      * destruct x as [| | | |s| |];
          try (rewrite (bump_run_not_a_string _ d Hfile _ Hget) by done;
               simpl; by auto).
        destruct (match_version s) as [m|] eqn:Hm.
        -- destruct (bump_patch s) as [new_version|e] eqn:Hbump.
           ++ by rewrite (bump_run_matched _ d Hfile s m new_version).
           ++ rewrite (bump_run_overflow _ d Hfile s m e) by done.
              rewrite (bump_patch_matched _ _ Hm) in Hbump.
              destruct (convertible _ _ _ _); [done|].
              by injection Hbump as <-.
        -- by rewrite (bump_run_unmatched _ d Hfile s).
      * by rewrite (bump_run_no_entry _ d).
    + destruct j; try done; run_bump; repeat (rewrite Hfile; simpl);
        (split; [done|by destruct w]).
  - run_bump. by rewrite Hfile.
Qed.

End TrainerLaws.

(* ================================================================== *)
(** * Language detection and the skipping of translations *)

Module TranslationLaws.
Import Py PyPure Translation.

Lemma re_search_app range (t1 t2 : text) :
  re_search range (t1 ++ t2) = re_search range t1 || re_search range t2.
Proof. apply existsb_app. Qed.

Lemma re_search_false range (t : text) :
  re_search range t = false ↔ ∀ c, c ∈ t → in_range range c = false.
Proof.
  unfold re_search. induction t as [|c t IH]; simpl.
  - split; [|done]. by intros _ c ?%elem_of_nil.
  - rewrite orb_false_iff, IH. split.
    + intros [Hc Ht] c' [->|?]%elem_of_cons; auto.
    + intros H. split; [apply H; by left|]. intros c' ?. apply H. by right.
Qed.

(** [detect_language], with its loop unrolled. *)
Lemma detect_language_unrolled (t : text) :
  detect_language t =
    if re_search (0x0B00, 0x0B7F)%N t then "or"
    else if re_search (0x0900, 0x097F)%N t then "hi"
    else if re_search (0x0980, 0x09FF)%N t then "as"
    else "en".
Proof. reflexivity. Qed.

Lemma indic_split c :
  indic c =
    in_range (0x0B00, 0x0B7F)%N c || in_range (0x0900, 0x097F)%N c ||
    in_range (0x0980, 0x09FF)%N c.
Proof.
  unfold indic, in_range. simpl.
  destruct (N.leb_spec 0x0B00 c), (N.leb_spec c 0x0B7F),
    (N.leb_spec 0x0900 c), (N.leb_spec c 0x097F),
    (N.leb_spec 0x0980 c), (N.leb_spec c 0x09FF); simpl; try done; lia.
Qed.

Lemma detect_language_en (t : text) :
  detect_language t = "en" ↔ ∀ c, c ∈ t → indic c = false.
Proof.
  rewrite detect_language_unrolled. split.
  - intros H c Hc. rewrite indic_split.
    destruct (re_search (0x0B00, 0x0B7F)%N t) eqn:E1; [done|].
    destruct (re_search (0x0900, 0x097F)%N t) eqn:E2; [done|].
    destruct (re_search (0x0980, 0x09FF)%N t) eqn:E3; [done|].
    rewrite re_search_false in E1, E2, E3.
    by rewrite (E1 c), (E2 c), (E3 c).
  - intros H.
    assert (∀ range, (∀ c, in_range range c = true → indic c = true) →
              re_search range t = false) as Hnone.
    { intros range Hr. apply re_search_false. intros c Hc.
      destruct (in_range range c) eqn:E; [|done].
      apply Hr in E. by rewrite (H c Hc) in E. }
    rewrite !Hnone; [done|..]; intros c Hc; rewrite indic_split, Hc;
      by rewrite ?orb_true_r.
Qed.

(** X21.  A text is taken to be English exactly when none of its
    characters lies in the blocks U+0900 to U+09FF and U+0B00 to U+0B7F:
    the empty text and a text in any other script are "en". *)
Theorem detect_language_english (t : text) :
  detect_language t = "en" ↔ ∀ c, c ∈ t → indic c = false.
Proof. apply detect_language_en. Qed.

Lemma detect_language_english_witness :
  detect_language [72; 105; 33]%N = "en".
Proof.
  apply (proj2 (detect_language_english [72; 105; 33]%N)).
  intros c Hc. rewrite !elem_of_cons, elem_of_nil in Hc.
  by destruct Hc as [->|[->|[->|[]]]].
Defined.

Lemma stronger_detect (o1 h1 a1 o2 h2 a2 : bool) :
  (if o1 || o2 then "or" else if h1 || h2 then "hi"
   else if a1 || a2 then "as" else "en") =
  stronger (if o1 then "or" else if h1 then "hi" else if a1 then "as" else "en")
           (if o2 then "or" else if h2 then "hi" else if a2 then "as" else "en").
Proof.
  destruct o1, h1, a1, o2, h2, a2; simpl; unfold stronger;
    repeat (case_decide; try done); intuition discriminate.
Qed.

(** X22.  Detection looks only at which scripts occur in a text, not at
    where or how often: the language of two texts put together is the
    one of the two that comes first in the order Odia, Hindi, Assamese,
    English, so one Odia character makes any text Odia, and the order in
    which two texts are joined does not matter. *)
Theorem detect_language_app (t1 t2 : text) :
  detect_language (t1 ++ t2) =
    stronger (detect_language t1) (detect_language t2) ∧
  detect_language (t1 ++ t2) = detect_language (t2 ++ t1).
Proof.
  rewrite !detect_language_unrolled, !re_search_app.
  split; [apply stronger_detect|].
  by rewrite (orb_comm (re_search (0x0B00, 0x0B7F)%N t1)),
    (orb_comm (re_search (0x0900, 0x097F)%N t1)),
    (orb_comm (re_search (0x0980, 0x09FF)%N t1)).
Qed.

Lemma translate_one_skip (b : backend) source_lang target_lang max_length t :
  match source_lang with None => detect_language t | Some l => l end
  = target_lang →
  translate_one b source_lang target_lang max_length t = Ok t.
Proof. intros H. unfold translate_one. by rewrite decide_True. Qed.

Lemma for_list_skip (b : backend) source_lang target_lang max_length (ts : list text) :
  (∀ t, t ∈ ts →
        match source_lang with None => detect_language t | Some l => l end
        = target_lang) →
  for_list (translate_one b source_lang target_lang max_length) ts = Ok ts.
Proof.
  induction ts as [|t ts IH]; intros H; simpl; [done|].
  rewrite translate_one_skip by (apply H; by left).
  simpl. rewrite IH; [done|]. intros t' ?. apply H. by right.
Qed.

(** X23.  When the source language is given and is the target language,
    [translate] gives back what it was given, one text or a list, for
    every tokenizer and model: they are not consulted. *)
Theorem translate_same_language (b : backend) texts lang max_length :
  translate b texts (Some lang) lang max_length = Ok texts ∧
  ∀ t, translate_from_english b t "en" = Ok (One t).
Proof.
  assert (∀ texts l ml, translate b texts (Some l) l ml = Ok texts) as H.
  { intros [t|ts] l ml; unfold translate; by rewrite for_list_skip. }
  split; [apply H|]. intros t. apply H.
Qed.

(** X24.  With the source language left to detection and English as the
    target, texts without a character of the three scripts come back as
    they are, whatever the model. *)
Theorem translate_english_passes (b : backend) (ts : list text) max_length :
  (∀ t c, t ∈ ts → c ∈ t → indic c = false) →
  translate b (Many ts) None "en" max_length = Ok (Many ts).
Proof.
  intros H. unfold translate. rewrite for_list_skip; [done|].
  intros t Ht. apply detect_language_en. intros c. by apply H.
Qed.

Lemma translate_english_passes_witness :
  translate (Backend true true (λ _ _ _ _, Err TypeError))
    (Many [[72; 105]; []; [2965]]%N) None "en" 512 =
  Ok (Many [[72; 105]; []; [2965]]%N).
Proof.
  apply (translate_english_passes (Backend true true (λ _ _ _ _, Err TypeError))
           [[72; 105]; []; [2965]]%N 512).
  intros t c Ht Hc. rewrite !elem_of_cons, elem_of_nil in Ht.
  destruct Ht as [->|[->|[->|[]]]].
  - rewrite !elem_of_cons, elem_of_nil in Hc. by destruct Hc as [->|[->|[]]].
  - by apply elem_of_nil in Hc.
  - rewrite !elem_of_cons, elem_of_nil in Hc. by destruct Hc as [->|[]].
Defined.

Lemma for_list_length {A B} (f : A → result B) xs ys :
  for_list f xs = Ok ys → length ys = length xs.
Proof.
  revert ys. induction xs as [|x xs IH]; intros ys; simpl.
  - by intros [= <-].
  - destruct (f x) as [y|e]; simpl; [|done].
    destruct (for_list f xs) as [ys'|e]; simpl; [|done].
    intros [= <-]. simpl. by rewrite (IH ys').
Qed.

Lemma for_list_lookup {A B} (f : A → result B) xs ys i x :
  for_list f xs = Ok ys → xs !! i = Some x →
  ∃ y, ys !! i = Some y ∧ f x = Ok y.
Proof.
  revert ys i. induction xs as [|x' xs IH]; intros ys i; simpl; [done|].
  destruct (f x') as [y|e] eqn:Hy; simpl; [|done].
  destruct (for_list f xs) as [ys'|e]; simpl; [|done].
  intros [= <-]. destruct i as [|i]; simpl.
  - intros [= ->]. by exists y.
  - by apply IH.
Qed.

(** X25.  When [translate] returns for a list, it returns one text for
    each text, in the same order; a text whose source language (given or
    detected) is the target language is at its place unchanged. *)
Theorem translate_keeps_places (b : backend) (ts out : list text)
    source_lang target_lang max_length :
  translate b (Many ts) source_lang target_lang max_length = Ok (Many out) →
  length out = length ts ∧
  ∀ i t, ts !! i = Some t →
         match source_lang with None => detect_language t | Some l => l end
         = target_lang →
         out !! i = Some t.
Proof.
  unfold translate.
  destruct (for_list _ ts) as [ys|e] eqn:E; simpl; [|done].
  intros [= <-]. split; [by eapply for_list_length|].
  intros i t Hi Hlang.
  destruct (for_list_lookup _ _ _ _ _ E Hi) as (y & Hy & Hone).
  unfold translate_one in Hone. cbv zeta in Hone.
  rewrite decide_True in Hone by done.
  by injection Hone as <-.
Qed.

Lemma translate_keeps_places_witness :
  let b := Backend true true (λ _ _ _ t, Ok (reverse t)) in
  let ts := [[72; 105]; [2325; 2326]]%N in
  let out := [[72; 105]; [2326; 2325]]%N in
  length out = length ts ∧
  ∀ i t, ts !! i = Some t →
         match (None : option string) with
         | None => detect_language t
         | Some l => l
         end = "en" →
         out !! i = Some t.
Proof.
  apply (translate_keeps_places (Backend true true (λ _ _ _ t, Ok (reverse t)))
           [[72; 105]; [2325; 2326]]%N [[72; 105]; [2326; 2325]]%N
           None "en" 512).
  reflexivity.
Defined.

End TranslationLaws.

(* ================================================================== *)
(** * Batching in [encode] and the routes of the service *)

Module EmbeddingLaws.
Import Py PyPure Embedding Routes.

Lemma py_range_positive stop (step : Z) :
  (0 < step)%Z →
  py_range stop step =
    Ok ((λ k, k * Z.to_nat step) <$>
          seq 0 ((stop + Z.to_nat step - 1) `div` Z.to_nat step)).
Proof.
  intros H. unfold py_range.
  rewrite decide_False by lia. by rewrite decide_False by lia.
Qed.

(** The number of batches: enough to cover the list, and not one more. *)
Lemma batches_cover n s :
  0 < s →
  n ≤ (n + s - 1) `div` s * s ∧
  ∀ k, k < (n + s - 1) `div` s → k * s < n.
Proof.
  intros Hs.
  pose proof (Nat.div_mod_eq (n + s - 1) s) as Hdiv.
  pose proof (Nat.mod_upper_bound (n + s - 1) s) as Hmod.
  set (q := (n + s - 1) `div` s) in *.
  set (r := (n + s - 1) `mod` s) in *.
  split; [nia|]. intros k Hk. nia.
Qed.

(** The first [m] batches of size [s] are the first [m * s] elements. *)
Lemma batches_concat {A} (l : list A) s m :
  concat ((λ i, take s (drop i l)) <$> ((λ k, k * s) <$> seq 0 m)) =
    take (m * s) l.
Proof.
  induction m as [|m IH]; [by rewrite take_0|].
  rewrite seq_S, !fmap_app, concat_app, IH. simpl.
  rewrite app_nil_r, take_take_drop. f_equal. lia.
Qed.

Section Pointwise.
Context {row : Type}.
Variable forward : bool → list text → result (array row).
Variable f : text → row.
Variable width : nat.
Variable normalize : bool.
Variable s : nat.
Hypothesis s_positive : 0 < s.
Hypothesis forward_pointwise :
  ∀ batch, 0 < length batch ≤ s →
           forward normalize batch = Ok (Array width (f <$> batch)).

Lemma for_list_batches (texts : list text) starts :
  (∀ i, i ∈ starts → i < length texts) →
  for_list (λ i, forward normalize (take s (drop i texts))) starts =
    Ok ((λ i, Array width (f <$> take s (drop i texts))) <$> starts).
Proof.
  induction starts as [|i starts IH]; intros H; simpl; [done|].
  rewrite forward_pointwise.
  - simpl. rewrite IH; [done|]. intros j ?. apply H. by right.
  - assert (i < length texts) by (apply H; by left).
    rewrite length_take, length_drop. lia.
Qed.

Lemma same_width (batches : list (list text)) :
  forallb (λ a' : array row, bool_decide (ncols a' = width))
    ((λ b, Array width (f <$> b)) <$> batches) = true.
Proof.
  induction batches as [|b batches IH]; [done|].
  rewrite fmap_cons. cbn [forallb ncols]. by rewrite bool_decide_true, IH.
Qed.

Lemma rows_concat (batches : list (list text)) :
  concat (rows <$> ((λ b, Array width (f <$> b)) <$> batches)) =
    f <$> concat batches.
Proof.
  induction batches as [|b batches IH]; [done|].
  rewrite !fmap_cons. cbn [concat rows]. by rewrite fmap_app, IH.
Qed.

Lemma vstack_same_width (batches : list (list text)) :
  batches ≠ [] →
  np_vstack ((λ b, Array width (f <$> b)) <$> batches) =
    Ok (Array width (f <$> concat batches)).
Proof.
  destruct batches as [|b batches]; [done|]. intros _.
  rewrite <- rows_concat. rewrite !fmap_cons. unfold np_vstack.
  cbn [ncols]. by rewrite same_width.
Qed.
End Pointwise.

(** X26.  Batching is transparent: when the model gives one row for each
    text of a batch, the row of a text not depending on its neighbours,
    [encode] with a positive batch size gives the rows of the texts in
    their order, one for each text, whatever the batch size.  The model
    is only asked about batches that are not empty and not longer than
    the batch size. *)
Theorem encode_batching {row} (forward : bool → list text → result (array row))
    (f : text → row) width normalize (texts : list text) (batch_size : Z) :
  (0 < batch_size)%Z →
  texts ≠ [] →
  (∀ batch, 0 < length batch ≤ Z.to_nat batch_size →
            forward normalize batch = Ok (Array width (f <$> batch))) →
  encode forward texts batch_size normalize = Ok (Array width (f <$> texts)).
Proof.
  intros Hbs Htexts Hf. unfold encode, batch_at.
  rewrite py_range_positive by done. simpl.
  set (s := Z.to_nat batch_size) in *.
  assert (0 < s) as Hs by (unfold s; lia).
  destruct (batches_cover (length texts) s Hs) as [Hcover Hstart].
  set (m := (length texts + s - 1) `div` s) in *.
  rewrite (for_list_batches forward f width normalize s Hs Hf).
  - simpl.
    assert (∀ starts : list nat,
              (λ i, Array width (f <$> take s (drop i texts))) <$> starts =
              (λ b, Array width (f <$> b)) <$>
                ((λ i, take s (drop i texts)) <$> starts)) as ->
      by (intros; by rewrite <- list_fmap_compose).
    rewrite (vstack_same_width f width).
    + rewrite batches_concat. by rewrite take_ge by lia.
    + destruct m as [|m]; [|done].
      destruct texts; [done|]. simpl in Hcover. lia.
  - intros i (k & -> & Hk%elem_of_seq)%list_elem_of_fmap. apply Hstart. lia.
Qed.

Lemma encode_batching_witness :
  encode (λ _ batch, Ok (Array 1 (length <$> batch)))
    [[72; 105]; []; [2325]; [65; 66; 67]; [1]]%N 2 true =
  Ok (Array 1 (length <$> [[72; 105]; []; [2325]; [65; 66; 67]; [1]]%N)).
Proof.
  apply (encode_batching (λ _ batch, Ok (Array 1 (length <$> batch)))
           length 1 true [[72; 105]; []; [2325]; [65; 66; 67]; [1]]%N 2).
  - reflexivity.
  - discriminate.
  - intros batch _. reflexivity.
Defined.

(** X27.  [encode] raises [ValueError] without asking the model when the
    list of texts is empty or the batch size is not positive; the route
    [/embed] uses the batch size 32, so an empty list of texts is
    answered with status 500 whatever the model. *)
Theorem encode_nothing_to_stack {row}
    (forward : bool → list text → result (array row))
    (texts : list text) (batch_size : Z) normalize :
  texts = [] ∨ (batch_size ≤ 0)%Z →
  encode forward texts batch_size normalize = Err ValueError ∧
  ∀ request,
    embed_texts request = [] →
    generate_embeddings (Some forward) request =
      ([(Service.ERROR, EmbeddingError ValueError)],
       HTTPException 500 (inr ValueError)).
Proof.
  assert (∀ bs n, encode forward [] bs n = Err ValueError) as Hempty.
  { intros bs n. unfold encode, py_range. cbn [length].
    destruct (decide (bs = 0)%Z); [done|].
    destruct (decide (bs < 0)%Z); [done|].
    by rewrite Nat.div_small by lia. }
  intros H. split.
  - destruct H as [->|Hbs]; [apply Hempty|].
    unfold encode, py_range.
    destruct (decide (batch_size = 0)%Z); [done|].
    by rewrite decide_True by lia.
  - intros request Hreq. unfold generate_embeddings, answer.
    by rewrite Hreq, Hempty.
Qed.

Lemma encode_nothing_to_stack_witness :
  encode (λ _ batch, Ok (Array 1 (length <$> batch))) [[72; 105]]%N 0 true =
    Err ValueError ∧
  ∀ request,
    embed_texts request = [] →
    generate_embeddings (Some (λ _ batch, Ok (Array 1 (length <$> batch))))
      request =
      ([(Service.ERROR, EmbeddingError ValueError)],
       HTTPException 500 (inr ValueError)).
Proof.
  apply (encode_nothing_to_stack (λ _ batch, Ok (Array 1 (length <$> batch)))
           [[72; 105]]%N 0 true).
  right. reflexivity.
Defined.

(** X28.  The route [/embed-batch] answers every request exactly as
    [/embed] does, with any model or with none; it differs in what it
    logs. *)
Theorem embed_batch_answers_as_embed {row}
    (embedding_model : option (bool → list text → result (array row)))
    (request : EmbedRequest) :
  (generate_embeddings_batch embedding_model request).2 =
  (generate_embeddings embedding_model request).2.
Proof.
  unfold generate_embeddings_batch, generate_embeddings, answer.
  destruct embedding_model as [forward|]; [|done].
  by destruct (encode forward _ _ _).
Qed.

End EmbeddingLaws.

(* ================================================================== *)
(** * The route [/translate] *)

Module RoutesLaws.
Import Py PyPure Translation Routes TranslationLaws.

(** X29.  [/translate] answers with status 503 when no model is loaded.
    With a model it calls [translate] on the texts of the request, with
    its source and target language.  When [translate] raises, it logs the
    error and answers with status 500 and the exception.  When
    [translate] returns, it logs nothing and answers with the texts
    [translate] has returned, one for each text of the request, and with
    one language for each text: the given source language, or else the
    language detected for the text; a text whose language is the target
    language is answered unchanged. *)
Theorem translate_text_answers (translation_model : option backend)
    (request : TranslateRequest) :
  let r := translate_text translation_model request in
  let texts := translate_texts request in
  let language_of (t : text) :=
    match source_lang request with
    | None => detect_language t
    | Some l => l
    end in
  match translation_model with
  | None =>
      r = ([], HTTPException 503 (inl "Translation model not loaded"))
  | Some b =>
      match translate b (Many texts) (source_lang request)
              (target_lang request) 512 with
      | Err e =>
          r = ([(Service.ERROR, TranslationError e)],
               HTTPException 500 (inr e))
      | Ok out =>
          ∃ ts,
            out = Many ts ∧
            r = ([], Response {| translations := ts;
                                 detected_languages := language_of <$> texts |}) ∧
            length ts = length texts ∧
            ∀ i t, texts !! i = Some t →
                   language_of t = target_lang request →
                   ts !! i = Some t
      end
  end.
Proof.
  intros r texts language_of. unfold r, translate_text, answer.
  destruct translation_model as [b|]; [|done].
  fold texts.
  destruct (translate b (Many texts) (source_lang request)
              (target_lang request) 512) as [[t|out]|e] eqn:E; [| |done].
  - unfold translate in E. by destruct (for_list _ _) in E.
  - exists out. split; [done|]. split.
    + do 3 f_equal. unfold language_of.
      destruct (source_lang request) as [l|]; [|done].
      clear. induction texts as [|t ts IH]; [done|].
      cbn [length replicate fmap list_fmap]. by rewrite IH.
    + unfold translate in E.
      destruct (for_list _ texts) as [ys|e'] eqn:E'; simpl in E; [|done].
      injection E as <-. split; [by eapply for_list_length|].
      intros i t Hi Hlang.
      destruct (for_list_lookup _ _ _ _ _ E' Hi) as (y & Hy & Hone).
      rewrite translate_one_skip in Hone by done.
      by injection Hone as <-.
Qed.

Lemma translate_text_answers_witness :
  let b := Backend true true (λ _ _ _ t, Ok (reverse t)) in
  let request :=
    {| translate_texts := [[72; 105]; [2325; 2326]]%N;
       source_lang := None; target_lang := "en" |} in
  ∃ ts,
    Many [[72; 105]; [2326; 2325]]%N = Many ts ∧
    translate_text (Some b) request =
      ([], Response {| translations := ts;
                       detected_languages := ["en"; "hi"] |}) ∧
    length ts = 2 ∧
    ∀ i t, [[72; 105]; [2325; 2326]]%N !! i = Some t →
           detect_language t = "en" → ts !! i = Some t.
Proof.
  exact (translate_text_answers
           (Some (Backend true true (λ _ _ _ t, Ok (reverse t))))
           {| translate_texts := [[72; 105]; [2325; 2326]]%N;
              source_lang := None; target_lang := "en" |}).
Defined.

End RoutesLaws.
